(** * IP geolocation tracker: a shallow embedding of [app.py]

    The development models the resolution and persistence pipeline of the
    Flask application: the IPv4 validator, the country flag, the client
    address resolver, the geolocation lookup with its fallback, the
    [ip_records] table with its insert-or-update statement, and the two
    routes that save a record.

    Python values are embedded as an inductive type, dictionaries as finite
    maps, strings as lists of code points.  Calls that leave the process
    (HTTP requests, SQL statements) read an explicit environment and thread
    an explicit world, and every such call is recorded in a trace. *)

From Stdlib Require Import ZArith String Ascii Floats.PrimFloat.
From stdpp Require Import base option list gmap.

Local Open Scope Z_scope.

(** ** Python strings *)

Module Py.

(** A Python [str] is a sequence of Unicode code points. *)
Abbreviation str := (list Z).

Definition ord (a : ascii) : Z := Z.of_N (N_of_ascii a).

(** A source literal, all of whose characters are ASCII. *)
Definition lit (s : string) : str := ord <$> list_ascii_of_string s.

Definition is_digit (c : Z) : bool := (48 <=? c) && (c <=? 57).
Definition is_ascii_lower (c : Z) : bool := (97 <=? c) && (c <=? 122).
Definition is_ascii_upper (c : Z) : bool := (65 <=? c) && (c <=? 90).
Definition is_ascii_letter (c : Z) : bool := is_ascii_lower c || is_ascii_upper c.

(** [str.isspace] on one code point, the set [str.strip()] removes. *)
Definition is_space (c : Z) : bool :=
  ((9 <=? c) && (c <=? 13)) || ((28 <=? c) && (c <=? 32))
  || (c =? 133) || (c =? 160) || (c =? 5760)
  || ((8192 <=? c) && (c <=? 8202))
  || (c =? 8232) || (c =? 8233) || (c =? 8239) || (c =? 8287) || (c =? 12288).

Fixpoint lstrip (s : str) : str :=
  match s with
  | c :: s' => if is_space c then lstrip s' else s
  | [] => []
  end.

Definition rstrip (s : str) : str := reverse (lstrip (reverse s)).

(** [s.strip()] *)
Definition strip (s : str) : str := rstrip (lstrip s).

(** [s.split(sep)[0]] for a one-character separator: the text before the
    first separator, the whole string when there is none. *)
Fixpoint split_head (sep : Z) (s : str) : str :=
  match s with
  | c :: s' => if c =? sep then [] else c :: split_head sep s'
  | [] => []
  end.

(** [sep.join(parts)] for a one-character separator. *)
Fixpoint join (sep : Z) (parts : list str) : str :=
  match parts with
  | [] => []
  | [p] => p
  | p :: ps => p ++ sep :: join sep ps
  end.

Definition str_eqb (a b : str) : bool := bool_decide (a = b).

End Py.
Export Py.

(** ** Regular expressions, as far as [validate_ip] uses them *)

Module Re.

Inductive regex : Type :=
| Bol                              (* ^ *)
| Eol                              (* $ *)
| Chr (c : Z)                      (* a literal character *)
| Cls (ranges : list (Z * Z))      (* [a-bc-d] *)
| Cat (r1 r2 : regex)
| Alt (r1 r2 : regex)              (* r1|r2 *)
| Opt (r : regex)                  (* r? *)
| Rep (n : nat) (r : regex).       (* r{n} *)

Definition in_class (c : Z) (ranges : list (Z * Z)) : bool :=
  existsb (fun '(lo, hi) => (lo <=? c) && (c <=? hi)) ranges.

(** Without [re.MULTILINE], [$] holds at the end of the subject and just
    before a line feed that is its last character. *)
Definition at_eol (s : str) : bool :=
  match s with
  | [] => true
  | [c] => c =? 10
  | _ => false
  end.

(** [m r i s k]: [r] matches a prefix of the rest [s] of the subject, which
    starts at offset [i], and the continuation [k] accepts what follows. *)
Fixpoint m (r : regex) (i : nat) (s : str) (k : nat -> str -> bool) : bool :=
  match r with
  | Bol => Nat.eqb i 0 && k i s
  | Eol => at_eol s && k i s
  | Chr c =>
      match s with
      | x :: s' => (x =? c) && k (S i) s'
      | [] => false
      end
  | Cls ranges =>
      match s with
      | x :: s' => in_class x ranges && k (S i) s'
      | [] => false
      end
  | Cat r1 r2 => m r1 i s (fun i' s' => m r2 i' s' k)
  | Alt r1 r2 => m r1 i s k || m r2 i s k
  | Opt r1 => m r1 i s k || k i s
  | Rep n r1 =>
      (fix rep (n : nat) (i : nat) (s : str) : bool :=
         match n with
         | O => k i s
         | S n' => m r1 i s (fun i' s' => rep n' i' s')
         end) n i s
  end.

(** [re.match(pattern, s) is not None] *)
Definition re_match (pattern : regex) (s : str) : bool :=
  m pattern 0%nat s (fun _ _ => true).

End Re.

(** ** [validate_ip] *)

Section Validate.
Import Re.

Definition digit_range (lo hi : ascii) : regex := Cls [(ord lo, ord hi)].

(** [25[0-5]|2[0-4][0-9]|[01]?[0-9][0-9]?] *)
Definition octet_re : regex :=
  Alt (Cat (Chr (ord "2")) (Cat (Chr (ord "5")) (digit_range "0" "5")))
 (Alt (Cat (Chr (ord "2")) (Cat (digit_range "0" "4") (digit_range "0" "9")))
      (Cat (Opt (Cls [(ord "0", ord "0"); (ord "1", ord "1")]))
           (Cat (digit_range "0" "9") (Opt (digit_range "0" "9"))))).

(** [^(?:(?:OCTET)\.){3}(?:OCTET)$] *)
Definition pattern : regex :=
  Cat Bol (Cat (Rep 3 (Cat octet_re (Chr (ord ".")))) (Cat octet_re Eol)).

Definition validate_ip (ip : str) : bool := re_match pattern ip.

End Validate.

(** ** Python values *)

(** What [json.loads] produces and what the program builds from it. *)
#[warnings="-register-all"]
Inductive value : Type :=
| VNone
| VBool (b : bool)
| VInt (z : Z)
| VFloat (f : float)
| VStr (s : str)
| VList (l : list value)
| VDict (d : gmap str value).

Abbreviation dict := (gmap str value).

Inductive exn : Type :=
| KeyError (key : str)
| TypeError
| AttributeError
| ValueError
| JSONDecodeError
| RequestException
| DatabaseError.

Inductive res (A : Type) : Type :=
| Ret (a : A)
| Raise (e : exn).
Arguments Ret {A} a.
Arguments Raise {A} e.

#[global] Instance res_ret : MRet res := fun A a => Ret a.
#[global] Instance res_bind : MBind res := fun A B f r =>
  match r with
  | Ret a => f a
  | Raise e => Raise e
  end.

(** [bool(v)] *)
Definition truthy (v : value) : bool :=
  match v with
  | VNone => false
  | VBool b => b
  | VInt z => negb (z =? 0)
  | VFloat f => negb (PrimFloat.eqb f 0%float)
  | VStr s => negb (bool_decide (s = []))
  | VList l => negb (bool_decide (l = []))
  | VDict d => negb (bool_decide (size d = 0%nat))
  end.

(** [len(v)] *)
Definition len (v : value) : res Z :=
  match v with
  | VStr s => Ret (Z.of_nat (length s))
  | VList l => Ret (Z.of_nat (length l))
  | VDict d => Ret (Z.of_nat (size d))
  | _ => Raise TypeError
  end.

(** [v[key]] for a string key *)
Definition subscript (v : value) (key : str) : res value :=
  match v with
  | VDict d =>
      match d !! key with
      | Some x => Ret x
      | None => Raise (KeyError key)
      end
  | _ => Raise TypeError
  end.

(** [v.get(key, default)] *)
Definition get (v : value) (key : str) (dflt : value) : res value :=
  match v with
  | VDict d => Ret (default dflt (d !! key))
  | _ => Raise AttributeError
  end.

(** [v == s] for a string literal [s] *)
Definition eq_str (v : value) (s : str) : bool :=
  match v with
  | VStr x => str_eqb x s
  | _ => false
  end.

(** [chr(i)] *)
Definition chr (i : Z) : res Z :=
  if (0 <=? i) && (i <? 1114112) then Ret i else Raise ValueError.

(** ** What the program takes from its libraries and from PostgreSQL

    [unicode_upper] is [str.upper()] on one character outside ASCII,
    [py_repr] is [str()] of a value that is not a string, [None] or a
    Boolean, [json_dumps] is [json.dumps].  [datum] is what a column holds;
    [pg_in ty v] is the datum that the parameter [v], as psycopg2 sends it,
    becomes in a column of type [ty], and [None] when the driver or the
    server refuses it. *)

Inductive coltype : Type :=
| INET
| VARCHAR (n : nat)
| TEXT
| BOOLEAN
| JSONB.

Class Platform : Type := {
  unicode_upper : Z -> str;
  py_repr : value -> str;
  json_dumps : value -> str;
  datum : Type;
  datum_eq_dec :: EqDecision datum;
  pg_in : coltype -> value -> option datum;
}.

Section Program.
Context `{Platform}.

(** [s.upper()]: one character may become several. *)
Definition upper_char (c : Z) : str :=
  if is_ascii_lower c then [c - 32]
  else if c <? 128 then [c]
  else unicode_upper c.

Definition upper (s : str) : str := s ≫= upper_char.

(** [v.upper()] *)
Definition value_upper (v : value) : res str :=
  match v with
  | VStr s => Ret (upper s)
  | _ => Raise AttributeError
  end.

(** [str(v)], as an f-string does it *)
Definition py_str (v : value) : str :=
  match v with
  | VStr s => s
  | VNone => lit "None"
  | VBool true => lit "True"
  | VBool false => lit "False"
  | _ => py_repr v
  end.

(** ** [get_country_flag] *)

Definition globe : str := [127757].

Definition get_country_flag (country_code : value) : res str :=
  if negb (truthy country_code) then Ret globe
  else
    n ← len country_code;
    if negb (n =? 2) then Ret globe
    else
      up ← value_upper country_code;
      mapM (fun c => chr (c + 127397)) up.

(** ** The database

    [init_db] creates the table; a row has its columns.  [id] is drawn from
    the table's sequence, [ip_address] is [NOT NULL UNIQUE], every other
    column may hold [NULL]. *)

Record ip_record : Type := {
  id : Z;
  ip_address : datum;
  country : option datum;
  region : option datum;
  city : option datum;
  org : option datum;
  vpn_detected : option datum;
  vpn_type : option datum;
  raw_geo_data : option datum;
  timestamp : Z;
}.

(** Every call that leaves the process, in the order the calls are made. *)
Inductive event : Type :=
| HttpGet (url : str)
| SqlSelect (ip : value)
| SqlInsert (ip : value)
| SqlCommit
| SqlRollback
| Flash (message : str).

(** The committed rows, the sequence behind [id], the uncommitted rows of
    the open connection (when a transaction is open), and the trace.  The
    sequence is the one of a [SERIAL] column: [nextval] gives no value
    above [serial_max]. *)
Record world : Type := {
  ip_records : list ip_record;
  ip_records_id_seq : Z;
  session : option (list ip_record);
  trace : list event;
}.

(** An HTTP response as [requests] presents it; [json] is [None] when
    [.json()] raises. *)
Record response : Type := {
  status_code : Z;
  text : str;
  json : option value;
}.

(** What one request sees of its surroundings: the network
    ([requests_get url] is [None] when [requests.get(url, timeout=5)]
    raises), the configuration, the Flask request, and the server's clock
    for the transaction. *)
Record environ : Type := {
  requests_get : str -> option response;
  IPAPI_TOKEN : option str;
  X_Forwarded_For : option str;
  remote_addr : option str;
  form_ip_to_save : option str;
  request_get_json : option value;
  CURRENT_TIMESTAMP : Z;
}.

(** ** Effects: a reader of the environment, a state of the world, and
    Python exceptions *)

Definition M (A : Type) : Type := environ -> world -> res A * world.

#[global] Instance M_ret : MRet M := fun A a _ w => (Ret a, w).
#[global] Instance M_bind : MBind M := fun A B f c e w =>
  match c e w with
  | (Ret a, w') => f a e w'
  | (Raise x, w') => (Raise x, w')
  end.
#[global] Instance M_fmap : FMap M := fun A B f c => a ← c; mret (f a).

Definition lift {A} (r : res A) : M A := fun _ w => (r, w).
Definition ask : M environ := fun e w => (Ret e, w).
Definition gets {A} (f : world -> A) : M A := fun _ w => (Ret (f w), w).
Definition modify (f : world -> world) : M unit := fun _ w => (Ret tt, f w).

Definition emit (ev : event) : M unit :=
  modify (fun w => {| ip_records := ip_records w;
                      ip_records_id_seq := ip_records_id_seq w;
                      session := session w;
                      trace := trace w ++ [ev] |}).

(** [try: body / except Exception: handler] (and the bare [except:]) *)
Definition try_except {A} (body : M A) (handler : exn -> M A) : M A :=
  fun e w =>
    match body e w with
    | (Ret a, w') => (Ret a, w')
    | (Raise x, w') => handler x e w'
    end.

(** [try: body / finally: final] *)
Definition try_finally {A} (body : M A) (final : M unit) : M A :=
  fun e w =>
    match body e w with
    | (r, w') =>
        match final e w' with
        | (Ret _, w'') => (r, w'')
        | (Raise x, w'') => (Raise x, w'')
        end
    end.

(** [requests.get(url, timeout=5)] *)
Definition http_get (url : str) : M response :=
  emit (HttpGet url);;
  e ← ask;
  match requests_get e url with
  | Some r => mret r
  | None => lift (Raise RequestException)
  end.

(** [r.json()] *)
Definition response_json (r : response) : res value :=
  match json r with
  | Some v => Ret v
  | None => Raise JSONDecodeError
  end.

(** *** Connections and statements *)

Definition set_session (s : option (list ip_record)) : M unit :=
  modify (fun w => {| ip_records := ip_records w;
                      ip_records_id_seq := ip_records_id_seq w;
                      session := s;
                      trace := trace w |}).

(** The rows the open connection sees. *)
Definition visible (w : world) : list ip_record :=
  default (ip_records w) (session w).

Definition get_db_connection : M unit := set_session None.
Definition conn_close : M unit := set_session None.

Definition conn_rollback : M unit := emit SqlRollback;; set_session None.

Definition conn_commit : M unit :=
  emit SqlCommit;;
  modify (fun w => {| ip_records := visible w;
                      ip_records_id_seq := ip_records_id_seq w;
                      session := None;
                      trace := trace w |}).

(** A parameter of a statement, bound to a column of type [ty]. *)
Definition sql_param (ty : coltype) (v : value) : res (option datum) :=
  match v with
  | VNone => Ret None
  | _ =>
      match pg_in ty v with
      | Some d => Ret (Some d)
      | None => Raise DatabaseError
      end
  end.

(** [SELECT COUNT( * ) as count FROM ip_records WHERE ip_address = %s] *)
Definition select_count (rows : list ip_record) (key : option datum) : Z :=
  match key with
  | Some k => Z.of_nat (length (filter (fun r => ip_address r = k) rows))
  | None => 0
  end.

Definition execute_select_count (ip : value) : M (option Z) :=
  emit (SqlSelect ip);;
  key ← lift (sql_param INET ip);
  rows ← gets visible;
  mret (Some (select_count rows key)).

(** [INSERT INTO ip_records (...) VALUES (...) ON CONFLICT (ip_address)
    DO UPDATE SET ...]: [excluded] is the row proposed for insertion. *)
Definition on_conflict_update (excluded r : ip_record) : ip_record :=
  {| id := id r;
     ip_address := ip_address r;
     country := country excluded;
     region := region excluded;
     city := city excluded;
     org := org excluded;
     vpn_detected := vpn_detected excluded;
     vpn_type := vpn_type excluded;
     raw_geo_data := raw_geo_data excluded;
     timestamp := timestamp excluded |}.

Definition insert_on_conflict (excluded : ip_record) (rows : list ip_record)
  : list ip_record :=
  if bool_decide (Exists (fun r => ip_address r = ip_address excluded) rows)
  then (fun r => if bool_decide (ip_address r = ip_address excluded)
                 then on_conflict_update excluded r else r) <$> rows
  else rows ++ [excluded].

(** The eight parameters of the statement. *)
Record insert_params : Type := {
  p_ip : value;
  p_country : value;
  p_region : value;
  p_city : value;
  p_org : value;
  p_vpn_detected : value;
  p_vpn_type : value;
  p_raw_geo_data : value;
}.

(** The row the statement proposes, when every parameter is accepted. *)
Definition proposed (now next_id : Z) (p : insert_params) : res ip_record :=
  a ← sql_param INET (p_ip p);
  k ← match a with Some k => Ret k | None => Raise DatabaseError end;
  c ← sql_param (VARCHAR 100) (p_country p);
  r ← sql_param (VARCHAR 100) (p_region p);
  t ← sql_param (VARCHAR 100) (p_city p);
  o ← sql_param TEXT (p_org p);
  d ← sql_param BOOLEAN (p_vpn_detected p);
  y ← sql_param (VARCHAR 50) (p_vpn_type p);
  j ← sql_param JSONB (p_raw_geo_data p);
  Ret {| id := next_id; ip_address := k; country := c; region := r;
         city := t; org := o; vpn_detected := d; vpn_type := y;
         raw_geo_data := j; timestamp := now |}.

(** The literals of the statement are read when it is analysed: a
    parameter that its column type refuses fails the statement before it
    runs. *)
Definition bind_params (p : insert_params) : res unit :=
  _ ← sql_param INET (p_ip p);
  _ ← sql_param (VARCHAR 100) (p_country p);
  _ ← sql_param (VARCHAR 100) (p_region p);
  _ ← sql_param (VARCHAR 100) (p_city p);
  _ ← sql_param TEXT (p_org p);
  _ ← sql_param BOOLEAN (p_vpn_detected p);
  _ ← sql_param (VARCHAR 50) (p_vpn_type p);
  _ ← sql_param JSONB (p_raw_geo_data p);
  Ret ().

(** The largest value of the sequence of a [SERIAL] column. *)
Definition serial_max : Z := 2147483647.

(** [nextval('ip_records_id_seq')], the default of [id]: past its largest
    value the sequence raises; a value it has given is not taken back by a
    rollback. *)
Definition nextval : M Z :=
  next_id ← gets (fun w => ip_records_id_seq w + 1);
  if serial_max <? next_id then lift (Raise DatabaseError)
  else
    modify (fun w => {| ip_records := ip_records w;
                        ip_records_id_seq := next_id;
                        session := session w;
                        trace := trace w |});;
    mret next_id.

(** No row has the address of the proposed row, so that it is inserted,
    but a row has its [id]: the primary key refuses it. *)
Definition pkey_violation (excluded : ip_record) (rows : list ip_record) : bool :=
  negb (bool_decide (Exists (fun r => ip_address r = ip_address excluded) rows))
  && bool_decide (Exists (fun r => id r = id excluded) rows).

(** The statement runs once its parameters are bound: it draws the [id],
    checks [NOT NULL] on the proposed row, and then updates the row of the
    address or inserts the proposed one. *)
Definition execute_insert (p : insert_params) : M unit :=
  emit (SqlInsert (p_ip p));;
  e ← ask;
  lift (bind_params p);;
  next_id ← nextval;
  excluded ← lift (proposed (CURRENT_TIMESTAMP e) next_id p);
  rows ← gets visible;
  if pkey_violation excluded rows then lift (Raise DatabaseError)
  else
    modify (fun w => {| ip_records := ip_records w;
                        ip_records_id_seq := ip_records_id_seq w;
                        session := Some (insert_on_conflict excluded rows);
                        trace := trace w |}).

(** ** [is_ip_in_database] *)

Definition is_ip_in_database (ip : value) : M bool :=
  get_db_connection;;
  result ← execute_select_count ip;
  let count := match result with Some c => c | None => 0 end in
  conn_close;;
  mret (0 <? count).

(** ** [save_ip_to_database] *)

(** The tuple of parameters, evaluated from left to right. *)
Definition insert_parameters (ip_data : dict) : res insert_params :=
  ip ← subscript (VDict ip_data) (lit "ip");
  l1 ← subscript (VDict ip_data) (lit "location");
  c ← subscript l1 (lit "country");
  l2 ← subscript (VDict ip_data) (lit "location");
  r ← subscript l2 (lit "region");
  l3 ← subscript (VDict ip_data) (lit "location");
  t ← subscript l3 (lit "city");
  l4 ← subscript (VDict ip_data) (lit "location");
  o ← subscript l4 (lit "org");
  d ← subscript (VDict ip_data) (lit "vpn_detected");
  y ← subscript (VDict ip_data) (lit "vpn_type");
  Ret {| p_ip := ip; p_country := c; p_region := r; p_city := t;
         p_org := o; p_vpn_detected := d; p_vpn_type := y;
         p_raw_geo_data := VStr (json_dumps (VDict ip_data)) |}.

Definition save_ip_to_database (ip_data : dict) : M bool :=
  _ ← lift (subscript (VDict ip_data) (lit "ip"));
  get_db_connection;;
  try_finally
    (try_except
       (p ← lift (insert_parameters ip_data);
        execute_insert p;;
        conn_commit;;
        _ ← lift (subscript (VDict ip_data) (lit "ip"));
        mret true)
       (fun _ =>
          _ ← lift (subscript (VDict ip_data) (lit "ip"));
          conn_rollback;;
          mret false))
    conn_close.

(** ** [get_user_ip] *)

Definition loopback : str := lit "127.0.0.1".

Definition get_user_ip : M value :=
  e ← ask;
  let x_forwarded_for := default [] (X_Forwarded_For e) in
  let ip :=
    if truthy (VStr x_forwarded_for)
    then VStr (strip (split_head (ord ",") x_forwarded_for))
    else from_option VStr VNone (remote_addr e) in
  if eq_str ip loopback
  then try_except
         (r ← http_get (lit "https://api.ipify.org"); mret (VStr (text r)))
         (fun _ => mret ip)
  else mret ip.

(** ** [get_ip_info] *)

Definition invalid_input (custom_ip : str) : dict :=
  list_to_map
    [(lit "error", VStr (lit "Invalid IP address format"));
     (lit "ip", VStr custom_ip)].

(** The data used when the lookup raises. *)
Definition fallback (ip : value) : dict :=
  list_to_map
    [(lit "ip", ip);
     (lit "asn", VStr (lit "Unknown"));
     (lit "as_name", VStr (lit "Unknown"));
     (lit "as_domain", VStr (lit "Unknown"));
     (lit "country_code", VStr (lit ""));
     (lit "country", VStr (lit "Unknown"));
     (lit "continent_code", VStr (lit ""));
     (lit "continent", VStr (lit "Unknown"))].

Definition geo_url (token : option str) (ip : value) : str :=
  let url := lit "https://api.ipinfo.io/lite/" ++ py_str ip in
  match token with
  | Some t => if truthy (VStr t) then url ++ lit "?token=" ++ t else url
  | None => url
  end.

(** [get_ip_info] from its [try] statement on, for the subject [ip]. *)
Definition get_ip_info_from (ip : value) : M dict :=
  e ← ask;
  geo_data ←
    try_except
      (r ← http_get (geo_url (IPAPI_TOKEN e) ip);
       lift (response_json r))
      (fun _ => mret (VDict (fallback ip)));
  found ← is_ip_in_database ip;
  let status := if found : bool then lit "duplicate" else lit "new" in
  country_code ← lift (get geo_data (lit "country_code") (VStr (lit "")));
  country_flag ← lift (get_country_flag country_code);
  ip' ← lift (get geo_data (lit "ip") ip);
  country ← lift (get geo_data (lit "country") (VStr (lit "Unknown")));
  continent ← lift (get geo_data (lit "continent") (VStr (lit "Unknown")));
  continent_code ← lift (get geo_data (lit "continent_code") (VStr (lit "")));
  asn ← lift (get geo_data (lit "asn") (VStr (lit "Unknown")));
  as_name ← lift (get geo_data (lit "as_name") (VStr (lit "Unknown")));
  as_domain ← lift (get geo_data (lit "as_domain") (VStr (lit "Unknown")));
  mret (list_to_map
    [(lit "status", VStr status);
     (lit "ip", ip');
     (lit "location", VDict (list_to_map
        [(lit "country", country);
         (lit "country_code", country_code);
         (lit "country_flag", VStr country_flag);
         (lit "continent", continent);
         (lit "continent_code", continent_code);
         (lit "asn", asn);
         (lit "as_name", as_name);
         (lit "as_domain", as_domain)]));
     (lit "vpn_detected", VBool false);
     (lit "vpn_type", VNone)]).

Definition get_ip_info (custom_ip : option str) : M dict :=
  match custom_ip with
  | Some s =>
      if truthy (VStr s)
      then if negb (validate_ip s)
           then mret (invalid_input s)
           else get_ip_info_from (VStr s)
      else ip ← get_user_ip; get_ip_info_from ip
  | None => ip ← get_user_ip; get_ip_info_from ip
  end.

(** ** The routes that save *)

Inductive http_response : Type :=
| Jsonify (body : dict) (status : Z)
| Redirect (endpoint : str).

Definition flash (message : str) : M unit := emit (Flash message).

(** [/save-ip] from the test of the status on, for the resolved [data]. *)
Definition save_ip_from (data : dict) : M http_response :=
  status ← lift (subscript (VDict data) (lit "status"));
  (if eq_str status (lit "new")
   then
     saved ← save_ip_to_database data;
     if saved : bool
     then ip ← lift (subscript (VDict data) (lit "ip"));
          flash (lit "IP " ++ py_str ip ++ lit " saved successfully!")
     else flash (lit "Error saving IP to database.")
   else flash (lit "IP already exists in database."));;
  mret (Redirect (lit "home")).

(** [/save-ip] *)
Definition save_ip : M http_response :=
  e ← ask;
  let ip_to_save := form_ip_to_save e in
  data ←
    (if truthy (from_option VStr VNone ip_to_save)
     then get_ip_info ip_to_save
     else get_ip_info None);
  save_ip_from data.

(** [data.get('ip_address', '').strip()] *)
Definition requested_ip : M str :=
  e ← ask;
  data ← lift (match request_get_json e with
               | Some v => Ret v
               | None => Raise ValueError
               end);
  a ← lift (get data (lit "ip_address") (VStr (lit "")));
  match a with
  | VStr s => mret (strip s)
  | _ => lift (Raise AttributeError)
  end.

Definition server_error : http_response :=
  Jsonify (list_to_map [(lit "error", VStr (lit "Server error occurred"))]) 500.

Definition ip_required : http_response :=
  Jsonify (list_to_map [(lit "error", VStr (lit "IP address is required"))]) 400.

(** [/api/analyze-ip] *)
Definition api_analyze_ip : M http_response :=
  try_except
    (ip_address ← requested_ip;
     if negb (truthy (VStr ip_address)) then mret ip_required
     else
       result ← get_ip_info (Some ip_address);
       match result !! lit "error" with
       | Some error => mret (Jsonify (list_to_map [(lit "error", error)]) 400)
       | None =>
           mret (Jsonify (list_to_map
                   [(lit "success", VBool true);
                    (lit "data", VDict result)]) 200)
       end)
    (fun _ => mret server_error).

(** [/api/save-ip] from the test of the status on, for the resolved
    [ip_data]. *)
Definition api_save_ip_from (ip_data : dict) : M http_response :=
  status ← lift (subscript (VDict ip_data) (lit "status"));
  if eq_str status (lit "new")
  then
    saved ← save_ip_to_database ip_data;
    if saved : bool
    then
      ip ← lift (subscript (VDict ip_data) (lit "ip"));
      mret (Jsonify (list_to_map
              [(lit "success", VBool true);
               (lit "message",
                VStr (lit "IP " ++ py_str ip ++ lit " saved successfully!"));
               (lit "data", VDict ip_data)]) 200)
    else
      mret (Jsonify (list_to_map
              [(lit "error", VStr (lit "Failed to save IP to database"))])
            500)
  else
    mret (Jsonify (list_to_map
            [(lit "success", VBool false);
             (lit "message", VStr (lit "IP already exists in database"));
             (lit "data", VDict ip_data)]) 200).

(** [/api/save-ip] *)
Definition api_save_ip : M http_response :=
  try_except
    (ip_address ← requested_ip;
     if negb (truthy (VStr ip_address)) then mret ip_required
     else
       ip_data ← get_ip_info (Some ip_address);
       match ip_data !! lit "error" with
       | Some error => mret (Jsonify (list_to_map [(lit "error", error)]) 400)
       | None => api_save_ip_from ip_data
       end)
    (fun _ => mret server_error).

(** What the page reads from a response: its [success] field. *)
Definition response_success (r : http_response) : bool :=
  match r with
  | Jsonify body _ =>
      match body !! lit "success" with
      | Some v => truthy v
      | None => false
      end
  | Redirect _ => false
  end.

(** ** The page *)

(** The keyword arguments the template is rendered with. *)
Record page : Type := {
  display_ip : value;
  error_message : value;
  page_data : dict;
}.

(** [render_template_string(html_template, display_ip=display_ip,
    error_message=error_message, **data)], up to the rendering itself: a
    key of [data] that repeats a keyword, or the name [source] of the
    first parameter, raises. *)
Definition render_arguments (display_ip error_message : value) (data : dict) : res page :=
  match data !! lit "source", data !! lit "display_ip", data !! lit "error_message" with
  | None, None, None =>
      Ret {| display_ip := display_ip; error_message := error_message;
             page_data := data |}
  | _, _, _ => Raise TypeError
  end.

(** A call made while the surroundings are [e0]. *)
Definition in_environ {A} (e0 : environ) (c : M A) : M A := fun _ w => c e0 w.

(** [/], for the request method and the form field [ip_address].  The
    route asks for the client's address twice, once itself and once through
    [get_ip_info()]; [first] is what the first of these calls sees, so that
    the address service may answer the two differently. *)
Definition home (method : str) (form_ip_address : option str) (first : environ)
  : M page :=
  user_ip ← in_environ first get_user_ip;
  '(custom_ip, error_message, data) ←
    (if str_eqb method (lit "POST")
     then
       let custom_ip := strip (default (lit "") form_ip_address) in
       if truthy (VStr custom_ip) && negb (eq_str user_ip custom_ip)
       then
         data ← get_ip_info (Some custom_ip);
         match data !! lit "error" with
         | Some error =>
             data ← get_ip_info None;
             mret (VStr custom_ip, error, data)
         | None => mret (VStr custom_ip, VNone, data)
         end
       else
         data ← get_ip_info None;
         mret (VStr custom_ip, VNone, data)
     else
       data ← get_ip_info None;
       mret (VNone, VNone, data));
  let display_ip :=
    if truthy custom_ip && negb (truthy error_message) then custom_ip else user_ip in
  lift (render_arguments display_ip error_message data).

End Program.

(** * Vocabulary of the statements *)

(** ** Texts *)

(** A text that neither starts nor ends with white space. *)
Definition trimmed (t : str) : Prop :=
  (forall c, head t = Some c -> is_space c = false) /\
  (forall c, last t = Some c -> is_space c = false).

(** The value of a decimal numeral. *)
Definition decimal (o : str) : Z := fold_left (fun acc c => 10 * acc + (c - 48)) o 0.

(** A decimal octet: one to three digits that denote at most 255. *)
Definition octet (o : str) : Prop :=
  (1 <= length o <= 3)%nat /\ forallb is_digit o = true /\ decimal o <= 255.

(** Four texts joined by dots. *)
Definition dotted_quad (a b c d : str) : str :=
  a ++ ord "." :: b ++ ord "." :: c ++ ord "." :: d.

(** [s.split(".")] *)
Fixpoint split_dots (s : str) : list str :=
  match s with
  | [] => [[]]
  | c :: s' =>
      if c =? ord "." then [] :: split_dots s'
      else match split_dots s' with
           | p :: ps => (c :: p) :: ps
           | [] => [[c]]
           end
  end.

(** A component that is a decimal numeral. *)
Definition numeric (o : str) : bool :=
  negb (bool_decide (o = [])) && forallb is_digit o.

(** The regional indicator symbol of a capital letter: U+1F1E6 is the one
    of [A]. *)
Definition regional_indicator (letter : Z) : Z := 127462 + (letter - 65).

Definition ascii_upper (c : Z) : Z := if is_ascii_lower c then c - 32 else c.

(** What an accepted string is made of. *)
Definition digit_or_dot (c : Z) : Prop := is_digit c = true \/ c = ord ".".

Section Vocabulary.
Context `{Platform}.

(** ** Worlds *)

(** The world after calls that touched neither the rows nor the
    connection. *)
Definition logged (w : world) (calls : list event) : world :=
  {| ip_records := ip_records w;
     ip_records_id_seq := ip_records_id_seq w;
     session := session w;
     trace := trace w ++ calls |}.

(** The world after calls that wrote nothing and closed the connection: the
    rows and the sequence are as before, no transaction is open. *)
Definition after (w : world) (calls : list event) : world :=
  {| ip_records := ip_records w;
     ip_records_id_seq := ip_records_id_seq w;
     session := None;
     trace := trace w ++ calls |}.

(** The world after a statement that drew a value of the sequence and then
    failed: the rows are as before, the value is gone. *)
Definition drawn (w : world) (calls : list event) : world :=
  {| ip_records := ip_records w;
     ip_records_id_seq := ip_records_id_seq w + 1;
     session := None;
     trace := trace w ++ calls |}.

(** The world after a committed insert. *)
Definition committed (w : world) (rows : list ip_record) (calls : list event) : world :=
  {| ip_records := rows;
     ip_records_id_seq := ip_records_id_seq w + 1;
     session := None;
     trace := trace w ++ calls |}.

(** ** Resolution *)

(** The address [get_user_ip] starts from: the first entry of the
    forwarding header when there is one, the peer's address otherwise. *)
Definition candidate (e : environ) : value :=
  match X_Forwarded_For e with
  | Some (c :: h) => VStr (strip (split_head (ord ",") (c :: h)))
  | _ => from_option VStr VNone (remote_addr e)
  end.

Definition ipify : str := lit "https://api.ipify.org".

(** The subject of a call of [get_ip_info] and the world in which its
    lookup starts: a custom address that passes the validator, or else what
    [get_user_ip] returns. *)
Definition subject_of (custom_ip : option str) (e : environ) (w : world)
    (ip : value) (w1 : world) : Prop :=
  (exists s : str,
     custom_ip = Some s /\ validate_ip s = true /\ ip = VStr s /\ w1 = w) \/
  ((custom_ip = None \/ custom_ip = Some []) /\ get_user_ip e w = (Ret ip, w1)).

(** What the lookup works with: the provider's answer, or the stand-in
    when the request or the decoding raises. *)
Definition geo_data_for (e : environ) (ip : value) : value :=
  match requests_get e (geo_url (IPAPI_TOKEN e) ip) with
  | Some r => default (VDict (fallback ip)) (json r)
  | None => VDict (fallback ip)
  end.

(** The two calls of a lookup. *)
Definition lookup_calls (e : environ) (ip : value) : list event :=
  [HttpGet (geo_url (IPAPI_TOKEN e) ip); SqlSelect ip].

(** The record [get_ip_info] assembles from the data [d]. *)
Definition ip_info (found : bool) (ip : value) (d : dict) (flag : str) : dict :=
  list_to_map
    [(lit "status", VStr (if found then lit "duplicate" else lit "new"));
     (lit "ip", default ip (d !! lit "ip"));
     (lit "location", VDict (list_to_map
        [(lit "country", default (VStr (lit "Unknown")) (d !! lit "country"));
         (lit "country_code", default (VStr (lit "")) (d !! lit "country_code"));
         (lit "country_flag", VStr flag);
         (lit "continent", default (VStr (lit "Unknown")) (d !! lit "continent"));
         (lit "continent_code", default (VStr (lit "")) (d !! lit "continent_code"));
         (lit "asn", default (VStr (lit "Unknown")) (d !! lit "asn"));
         (lit "as_name", default (VStr (lit "Unknown")) (d !! lit "as_name"));
         (lit "as_domain", default (VStr (lit "Unknown")) (d !! lit "as_domain"))]));
     (lit "vpn_detected", VBool false);
     (lit "vpn_type", VNone)].

(** A record with the address [ip] in which every descriptive field is
    [Unknown], the codes are empty, the flag is the globe, and no VPN is
    reported. *)
Definition fallback_record (ip : value) (r : dict) : Prop :=
  r !! lit "ip" = Some ip /\
  r !! lit "vpn_detected" = Some (VBool false) /\
  r !! lit "vpn_type" = Some VNone /\
  exists loc : dict,
    r !! lit "location" = Some (VDict loc) /\
    loc !! lit "country" = Some (VStr (lit "Unknown")) /\
    loc !! lit "country_code" = Some (VStr (lit "")) /\
    loc !! lit "country_flag" = Some (VStr [127757]) /\
    loc !! lit "continent" = Some (VStr (lit "Unknown")) /\
    loc !! lit "continent_code" = Some (VStr (lit "")) /\
    loc !! lit "asn" = Some (VStr (lit "Unknown")) /\
    loc !! lit "as_name" = Some (VStr (lit "Unknown")) /\
    loc !! lit "as_domain" = Some (VStr (lit "Unknown")).

(** The fields the program reads from the provider's answer. *)
Definition provider_fields : list str :=
  [lit "ip"; lit "asn"; lit "as_name"; lit "as_domain"; lit "country_code";
   lit "country"; lit "continent_code"; lit "continent"].

(** The lookup for [ip] does not get the provider's fields: the request
    raises, or the body of the response is not JSON, or it is a JSON
    object without any of the fields.  The status code is not part of
    this. *)
Definition no_provider_data (e : environ) (ip : value) : Prop :=
  requests_get e (geo_url (IPAPI_TOKEN e) ip) = None \/
  (exists a : response,
     requests_get e (geo_url (IPAPI_TOKEN e) ip) = Some a /\ json a = None) \/
  (exists (a : response) (d : dict),
     requests_get e (geo_url (IPAPI_TOKEN e) ip) = Some a /\
     json a = Some (VDict d) /\
     Forall (fun k => d !! k = None) provider_fields).

(** ** The table *)


(** A row for the address [key] is in [rows]. *)
Definition row_exists (rows : list ip_record) (key : option datum) : Prop :=
  exists row : ip_record, row ∈ rows /\ key = Some (ip_address row).

Definition keys (rows : list ip_record) : list datum := ip_address <$> rows.

(** No two rows have the same address. *)
Definition unique (rows : list ip_record) : Prop := NoDup (keys rows).

(** The rows for the address [k]. *)
Definition rows_for (k : datum) (rows : list ip_record) : list ip_record :=
  filter (fun r => ip_address r = k) rows.

(** The world after a sequence of calls of [save_ip_to_database]. *)
Fixpoint saves (calls : list (dict * environ)) (w : world) : world :=
  match calls with
  | [] => w
  | (ip_data, e) :: calls' => saves calls' (save_ip_to_database ip_data e w).2
  end.

(** ** Calls and records *)

(** A call that reads: a request, or a query. *)
Definition is_read (ev : event) : Prop :=
  match ev with
  | HttpGet _ | SqlSelect _ => True
  | _ => False
  end.

(** The keys of a record and of its [location]. *)
Definition record_keys : gset str :=
  list_to_set [lit "status"; lit "ip"; lit "location"; lit "vpn_detected"; lit "vpn_type"].

Definition location_keys : gset str :=
  list_to_set [lit "country"; lit "country_code"; lit "country_flag"; lit "continent";
               lit "continent_code"; lit "asn"; lit "as_name"; lit "as_domain"].

(** ** Requests and answers of the routes *)

(** The JSON body of the request is an object whose [ip_address] is a
    string that [strip()] turns into [s]. *)
Definition asks_for (e : environ) (s : str) : Prop :=
  exists (d : dict) (raw : str),
    request_get_json e = Some (VDict d) /\
    d !! lit "ip_address" = Some (VStr raw) /\
    strip raw = s.

Definition invalid_format : http_response :=
  Jsonify (list_to_map [(lit "error", VStr (lit "Invalid IP address format"))]) 400.

Definition save_failed : http_response :=
  Jsonify (list_to_map [(lit "error", VStr (lit "Failed to save IP to database"))]) 500.

Definition already_exists (ip_data : dict) : http_response :=
  Jsonify (list_to_map
             [(lit "success", VBool false);
              (lit "message", VStr (lit "IP already exists in database"));
              (lit "data", VDict ip_data)]) 200.

Definition analysed (result : dict) : http_response :=
  Jsonify (list_to_map [(lit "success", VBool true); (lit "data", VDict result)]) 200.

(** The custom address [/save-ip] resolves. *)
Definition form_address (e : environ) : option str :=
  if truthy (from_option VStr VNone (form_ip_to_save e)) then form_ip_to_save e else None.

End Vocabulary.

(** * A platform and requests to run the program on

    Addresses are stored as their four octets, text as its code points,
    Booleans as one digit.  The database takes a string for every column
    but the Boolean one, and a Boolean for that one. *)

Module Example.

Fixpoint octets (s : str) (cur : Z) : list Z :=
  match s with
  | [] => [cur]
  | c :: s' =>
      if c =? ord "." then cur :: octets s' 0
      else octets s' (10 * cur + (c - 48))
  end.

Definition inet_in (s : str) : option (list Z) :=
  if validate_ip s && negb (bool_decide (last s = Some 10))
  then Some (octets s 0) else None.

Definition column_in (ty : coltype) (v : value) : option (list Z) :=
  match ty, v with
  | INET, VStr s => inet_in s
  | VARCHAR n, VStr s => if bool_decide (length s ≤ n)%nat then Some s else None
  | TEXT, VStr s => Some s
  | JSONB, VStr s => Some s
  | BOOLEAN, VBool b => Some [if b then 1 else 0]
  | _, _ => None
  end.

#[export] Instance platform : Platform := {|
  unicode_upper c := [c];
  py_repr _ := lit "...";
  json_dumps _ := lit "{}";
  datum := list Z;
  pg_in := column_in;
|}.

Definition empty : world :=
  {| ip_records := []; ip_records_id_seq := 0; session := None; trace := [] |}.

(** A request for [ip], answered by [geo] at the provider's address. *)
Definition request (ip : str) (geo : option response) : environ :=
  {| requests_get url :=
       if str_eqb url (lit "https://api.ipinfo.io/lite/" ++ ip) then geo else None;
     IPAPI_TOKEN := None;
     X_Forwarded_For := None;
     remote_addr := Some (lit "10.0.0.7");
     form_ip_to_save := Some ip;
     request_get_json := Some (VDict (list_to_map [(lit "ip_address", VStr ip)]));
     CURRENT_TIMESTAMP := 1000 |}.

Definition ip8 : str := lit "8.8.8.8".

(** The provider does not answer in time. *)
Definition timed_out : environ := request ip8 None.

(** What the resolution of [ip8] then returns. *)
Definition resolved (found : bool) : dict :=
  ip_info found (VStr ip8) (fallback (VStr ip8)) [127757].

Definition looked_up : world := after empty (lookup_calls timed_out (VStr ip8)).

Definition quoted (s : str) : str := 34 :: s ++ [34].

Definition atlantis : dict := list_to_map [(lit "country", VStr (lit "Atlantis"))].

(** The provider answers with status 500 and a JSON object that names a
    country. *)
Definition refused : environ :=
  request ip8
    (Some {| status_code := 500;
             text := lit "{" ++ quoted (lit "country") ++ lit ": "
                     ++ quoted (lit "Atlantis") ++ lit "}";
             json := Some (VDict atlantis) |}).

(** A record as the insert statement reads it, with [region], [city] and
    [org]. *)
Definition legacy (country_name : string) : dict :=
  list_to_map
    [(lit "status", VStr (lit "new"));
     (lit "ip", VStr ip8);
     (lit "location", VDict (list_to_map
        [(lit "country", VStr (lit country_name));
         (lit "region", VNone);
         (lit "city", VNone);
         (lit "org", VStr (lit "Example Net"))]));
     (lit "vpn_detected", VBool false);
     (lit "vpn_type", VNone)].

Definition legacy_params (country_name : string) : insert_params :=
  {| p_ip := VStr ip8; p_country := VStr (lit country_name);
     p_region := VNone; p_city := VNone;
     p_org := VStr (lit "Example Net");
     p_vpn_detected := VBool false; p_vpn_type := VNone;
     p_raw_geo_data := VStr (lit "{}") |}.

Definition at_time (now : Z) : environ :=
  {| requests_get _ := None;
     IPAPI_TOKEN := None;
     X_Forwarded_For := None;
     remote_addr := None;
     form_ip_to_save := None;
     request_get_json := None;
     CURRENT_TIMESTAMP := now |}.

(** A request that came through two proxies. *)
Definition proxied : environ :=
  {| requests_get _ := None;
     IPAPI_TOKEN := None;
     X_Forwarded_For := Some (lit " 203.0.113.9 , 10.0.0.1");
     remote_addr := Some (lit "10.0.0.1");
     form_ip_to_save := None;
     request_get_json := None;
     CURRENT_TIMESTAMP := 0 |}.

(** A request on the machine itself; the address service answers. *)
Definition local (answer : option response) : environ :=
  {| requests_get url := if str_eqb url (lit "https://api.ipify.org") then answer else None;
     IPAPI_TOKEN := None;
     X_Forwarded_For := None;
     remote_addr := Some (lit "127.0.0.1");
     form_ip_to_save := None;
     request_get_json := None;
     CURRENT_TIMESTAMP := 0 |}.

(** The record of another address. *)
Definition other : dict := <[lit "ip" := VStr (lit "1.1.1.1")]> (legacy "France").

(** The provider answers a request for [ip8] with status 200 and the JSON
    value [v]. *)
Definition answered (v : value) : environ :=
  request ip8 (Some {| status_code := 200; text := json_dumps v; json := Some v |}).

(** The body is a JSON array. *)
Definition listed : environ := answered (VList []).

(** The country code is a number. *)
Definition numbered : environ :=
  answered (VDict (list_to_map [(lit "country_code", VInt 840)])).

(** The answer is about another address. *)
Definition elsewhere : dict := list_to_map [(lit "ip", VStr (lit "9.9.9.9"))].

Definition rerouted : environ := answered (VDict elsewhere).

(** A request whose forwarding header is not an address. *)
Definition spoofed : environ :=
  {| requests_get _ := None;
     IPAPI_TOKEN := None;
     X_Forwarded_For := Some (lit "not-an-ip");
     remote_addr := Some (lit "10.0.0.1");
     form_ip_to_save := None;
     request_get_json := None;
     CURRENT_TIMESTAMP := 0 |}.

(** The peer of [request]. *)
Definition peer : str := lit "10.0.0.7".

(** What the resolution of the peer's own address returns. *)
Definition own : dict := ip_info false (VStr peer) (fallback (VStr peer)) [127757].

Definition own_looked_up : world := after empty (lookup_calls timed_out (VStr peer)).

(** The table after the first save of [legacy]. *)
Definition saved_once : world :=
  (save_ip_to_database (legacy "United States") (at_time 1000) empty).2.

Definition saved_other : world :=
  (save_ip_to_database other (at_time 500) empty).2.


(** A record without an address. *)
Definition anonymous : dict := <[lit "ip" := VNone]> (legacy "France").

Definition anonymous_params : insert_params :=
  {| p_ip := VNone; p_country := VStr (lit "France");
     p_region := VNone; p_city := VNone;
     p_org := VStr (lit "Example Net");
     p_vpn_detected := VBool false; p_vpn_type := VNone;
     p_raw_geo_data := VStr (lit "{}") |}.

(** A table whose sequence has one value left, and that table after the
    save that draws it. *)
Definition nearly_full : world :=
  {| ip_records := []; ip_records_id_seq := serial_max - 1; session := None; trace := [] |}.

Definition saved_last : world :=
  (save_ip_to_database (legacy "United States") (at_time 1000) nearly_full).2.

(** The address service is out of order: it answers with status 503 and
    a text that is no address. *)
Definition unavailable : environ :=
  local (Some {| status_code := 503; text := lit "oops"; json := None |}).

(** The address service answers. *)
Definition located : environ :=
  local (Some {| status_code := 200; text := lit "198.51.100.4"; json := None |}).

End Example.
(** * Facts *)

(** ** Strings *)

Section Strings.

Lemma lstrip_spaces (pre t : str) :
  forallb is_space pre = true -> lstrip (pre ++ t) = lstrip t.
Proof.
  induction pre as [|c pre IH]; simpl; [done|].
  intros [Hc Hpre]%andb_true_iff. rewrite Hc. auto.
Qed.

Lemma lstrip_all_spaces (s : str) : forallb is_space s = true -> lstrip s = [].
Proof.
  intros Hs. rewrite <- (app_nil_r s). by rewrite lstrip_spaces.
Qed.

Lemma lstrip_head (c : Z) (t : str) : is_space c = false -> lstrip (c :: t) = c :: t.
Proof. simpl. by intros ->. Qed.

Lemma forallb_reverse {A} (f : A -> bool) (l : list A) :
  forallb f (reverse l) = forallb f l.
Proof.
  induction l as [|x l IH]; [done|].
  rewrite reverse_cons, forallb_app, IH. simpl. destruct (f x), (forallb f l); done.
Qed.

(** [strip] removes the white space around a trimmed text, and only that. *)
Lemma strip_spec (pre t post : str) :
  forallb is_space pre = true -> forallb is_space post = true -> trimmed t ->
  strip (pre ++ t ++ post) = t.
Proof.
  intros Hpre Hpost [Hhd Hlast]. unfold strip, rstrip.
  rewrite lstrip_spaces by done.
  destruct t as [|c t].
  - simpl. rewrite (lstrip_all_spaces post) by done.
    reflexivity.
  - change ((c :: t) ++ post) with (c :: (t ++ post)).
    rewrite lstrip_head by (apply Hhd; done).
    change (c :: (t ++ post)) with ((c :: t) ++ post).
    rewrite reverse_app, lstrip_spaces by (by rewrite forallb_reverse).
    destruct (reverse (c :: t)) as [|d u] eqn:Hrev.
    + apply (f_equal reverse) in Hrev. rewrite reverse_involutive in Hrev. done.
    + rewrite lstrip_head.
      * rewrite <- Hrev. apply reverse_involutive.
      * apply Hlast. rewrite <- (reverse_involutive (c :: t)), Hrev.
        rewrite reverse_cons. apply last_snoc.
Qed.

Lemma split_head_no_sep (sep : Z) (x : str) : sep ∉ x -> split_head sep x = x.
Proof.
  induction x as [|c x IH]; simpl; [done|].
  intros Hx. apply not_elem_of_cons in Hx as [Hc Hx].
  destruct (Z.eqb_spec c sep); [congruence|]. by rewrite IH.
Qed.

Lemma split_head_sep (sep : Z) (x rest : str) :
  sep ∉ x -> split_head sep (x ++ sep :: rest) = x.
Proof.
  induction x as [|c x IH]; simpl.
  - by rewrite Z.eqb_refl.
  - intros Hx. apply not_elem_of_cons in Hx as [Hc Hx].
    destruct (Z.eqb_spec c sep); [congruence|]. by rewrite IH.
Qed.

(** The first entry of a separated list is what [split(sep)[0]] returns. *)
Lemma split_head_join (sep : Z) (x : str) (xs : list str) :
  sep ∉ x -> split_head sep (join sep (x :: xs)) = x.
Proof.
  intros Hx. destruct xs as [|y ys].
  - by apply split_head_no_sep.
  - change (join sep (x :: y :: ys)) with (x ++ sep :: join sep (y :: ys)).
    by apply split_head_sep.
Qed.

End Strings.

(** ** The validator *)

Section ValidatorFacts.
Import Re.

Local Ltac ords :=
  repeat match goal with
         | |- context [ord ?a] =>
             let v := eval vm_compute in (ord a) in change (ord a) with v
         | H : context [ord ?a] |- _ =>
             let v := eval vm_compute in (ord a) in change (ord a) with v in H
         end.

Local Ltac split_on v :=
  repeat match goal with
         | |- context [v =? ?y] => destruct (Z.eqb_spec v y); try lia
         | |- context [?y <=? v] => destruct (Z.leb_spec y v); try lia
         | |- context [v <=? ?y] => destruct (Z.leb_spec v y); try lia
         end.

Local Ltac digits H :=
  unfold is_digit in H;
  repeat match type of H with
         | _ && _ = true => let H' := fresh in apply andb_true_iff in H as [H' H]
         end;
  repeat match goal with
         | H' : (_ <=? _) = true |- _ => apply Z.leb_le in H'
         end.

(** The pattern of an octet matches every octet, whatever follows. *)
Lemma m_octet (o : str) :
  octet o -> forall (i : nat) (rest : str) (k : nat -> str -> bool),
  k (length o + i)%nat rest = true -> m octet_re i (o ++ rest) k = true.
Proof.
  intros (Hlen & Hdig & Hval) i rest k Hk.
  destruct o as [|a [|b [|c [|]]]]; simpl in Hlen; try lia;
    unfold decimal in Hval; simpl in Hval, Hdig, Hk; digits Hdig;
    unfold octet_re, digit_range; cbn -[Z.eqb Z.leb ord]; unfold in_class;
    cbn -[Z.eqb Z.leb ord]; ords.
  - split_on a; cbn; rewrite ?Hk, ?orb_true_r; reflexivity.
  - split_on a; split_on b; cbn; rewrite ?Hk, ?orb_true_r; reflexivity.
  - split_on a; split_on b; split_on c; cbn; rewrite ?Hk, ?orb_true_r; reflexivity.
Qed.

Lemma m_octet_dot (o rest : str) (i : nat) (k : nat -> str -> bool) :
  octet o -> k (S (length o + i)) rest = true ->
  m (Cat octet_re (Chr (ord "."))) i (o ++ ord "." :: rest) k = true.
Proof.
  intros Ho Hk. cbn [m]. apply m_octet; [done|].
  cbn [m]. by rewrite Z.eqb_refl.
Qed.

(** The pattern, with its repetition written out. *)
Lemma validate_ip_unfold (s : str) :
  validate_ip s =
  m (Cat octet_re (Chr (ord "."))) 0 s
    (fun i1 s1 => m (Cat octet_re (Chr (ord "."))) i1 s1
       (fun i2 s2 => m (Cat octet_re (Chr (ord "."))) i2 s2
          (fun i3 s3 => m octet_re i3 s3 (fun i4 s4 => at_eol s4 && true)))).
Proof. reflexivity. Qed.

(** Every dotted quad of decimal octets passes the validator. *)
Lemma validate_ip_dotted_quad (a b c d : str) :
  octet a -> octet b -> octet c -> octet d ->
  validate_ip (dotted_quad a b c d) = true.
Proof.
  intros Ha Hb Hc Hd. rewrite validate_ip_unfold. unfold dotted_quad.
  do 3 (apply m_octet_dot; [done|]).
  rewrite <- (app_nil_r d). by apply m_octet.
Qed.

(** So does one that is followed by a line feed. *)
Lemma validate_ip_dotted_quad_lf (a b c d : str) :
  octet a -> octet b -> octet c -> octet d ->
  validate_ip (dotted_quad a b c d ++ [10]) = true.
Proof.
  intros Ha Hb Hc Hd. rewrite validate_ip_unfold. unfold dotted_quad.
  rewrite <- !app_assoc; cbn [app]; rewrite <- !app_assoc; cbn [app];
    rewrite <- !app_assoc; cbn [app].
  do 3 (apply m_octet_dot; [done|]).
  by apply m_octet.
Qed.

Lemma m_chr_inv (c : Z) (i : nat) (s : str) (k : nat -> str -> bool) :
  m (Chr c) i s k = true -> exists s', s = c :: s' /\ k (S i) s' = true.
Proof.
  destruct s as [|x s']; simpl; [done|].
  intros [->%Z.eqb_eq Hk]%andb_true_iff. eauto.
Qed.

Lemma at_eol_inv (s : str) : at_eol s = true -> s = [] \/ s = [10].
Proof.
  destruct s as [|c [|]]; simpl; try done; [by left|].
  intros ->%Z.eqb_eq. by right.
Qed.

Local Ltac leaves H :=
  repeat match type of H with
         | _ || false = true => rewrite orb_false_r in H
         | _ || _ = true => apply orb_true_iff in H as [H|H]
         | _ && _ = true =>
             let H' := fresh "L" in apply andb_true_iff in H as [H' H]; leaves H'
         | (_ =? _) = true => apply Z.eqb_eq in H
         | (_ <=? _) = true => apply Z.leb_le in H
         | false = true => discriminate H
         end.

Local Ltac octet_ok :=
  split;
  [ split; [simpl; lia|];
    split; [unfold is_digit; simpl; rewrite ?andb_true_r, ?andb_true_iff, ?Z.leb_le; lia|];
    unfold decimal; simpl; lia
  | split; [reflexivity | assumption] ].

(** What the pattern of an octet matches is an octet. *)
Lemma m_octet_inv (i : nat) (s : str) (k : nat -> str -> bool) :
  m octet_re i s k = true ->
  exists o rest, octet o /\ s = o ++ rest /\ k (length o + i)%nat rest = true.
Proof.
  unfold octet_re, digit_range. cbn -[Z.eqb Z.leb ord]. unfold in_class.
  cbn -[Z.eqb Z.leb ord]. intros Hm. ords.
  destruct s as [|x1 [|x2 [|x3 s']]]; leaves Hm.
  all: first [ by (exists [x1; x2; x3], s'; octet_ok)
             | by (exists [x1; x2], [x3]; octet_ok)
             | by (exists [x1; x2], (x3 :: s'); octet_ok)
             | by (exists [x1; x2], []; octet_ok)
             | by (exists [x1], []; octet_ok)
             | by (exists [x1], [x2]; octet_ok)
             | by (exists [x1], (x2 :: x3 :: s'); octet_ok) ].
Qed.

Lemma m_octet_dot_inv (i : nat) (s : str) (k : nat -> str -> bool) :
  m (Cat octet_re (Chr (ord "."))) i s k = true ->
  exists o rest, octet o /\ s = o ++ ord "." :: rest /\ k (S (length o + i)) rest = true.
Proof.
  intros Hm.
  change (m octet_re i s (fun i' s' => m (Chr (ord ".")) i' s' k) = true) in Hm.
  apply m_octet_inv in Hm as (o & rest & Ho & -> & Hm).
  apply m_chr_inv in Hm as (s' & -> & Hm). eauto.
Qed.

(** What the validator accepts: the dotted quads of decimal octets, and
    those followed by one line feed. *)
Lemma validate_ip_iff (s : str) :
  validate_ip s = true <->
  exists a b c d : str,
    octet a /\ octet b /\ octet c /\ octet d /\
    (s = dotted_quad a b c d \/ s = dotted_quad a b c d ++ [10]).
Proof.
  split.
  - rewrite validate_ip_unfold. intros Hm.
    apply m_octet_dot_inv in Hm as (a & s1 & Ha & -> & Hm).
    apply m_octet_dot_inv in Hm as (b & s2 & Hb & -> & Hm).
    apply m_octet_dot_inv in Hm as (c & s3 & Hc & -> & Hm).
    apply m_octet_inv in Hm as (d & s4 & Hd & -> & Hm).
    rewrite andb_true_r in Hm. apply at_eol_inv in Hm.
    exists a, b, c, d. repeat (split; [done|]). unfold dotted_quad.
    destruct Hm as [-> | ->].
    + left. by rewrite app_nil_r.
    + right. rewrite <- !app_assoc. cbn [app]. rewrite <- !app_assoc. cbn [app].
      rewrite <- !app_assoc. reflexivity.
  - intros (a & b & c & d & Ha & Hb & Hc & Hd & [-> | ->]).
    + by apply validate_ip_dotted_quad.
    + by apply validate_ip_dotted_quad_lf.
Qed.

Lemma validate_ip_nonempty (s : str) : validate_ip s = true -> s <> [].
Proof. intros Hs ->. discriminate Hs. Qed.

(** C3.  The validator accepts a dotted quad that is followed by a line
    feed, although the last of its dot-separated components is then not a
    decimal numeral: [$] also holds just before a final line feed. *)
Theorem validate_ip_accepts_trailing_line_feed :
  split_dots (lit "1.2.3.4" ++ [10]) = [lit "1"; lit "2"; lit "3"; lit "4" ++ [10]] /\
  numeric (lit "4" ++ [10]) = false /\
  validate_ip (lit "1.2.3.4" ++ [10]) = true.
Proof. repeat split; reflexivity. Qed.

End ValidatorFacts.

(** ** The country flag *)

Section FlagFacts.
Context `{Platform}.

Lemma upper_char_letter (c : Z) :
  is_ascii_letter c = true -> upper_char c = [ascii_upper c].
Proof.
  unfold is_ascii_letter, upper_char, ascii_upper.
  destruct (is_ascii_lower c) eqn:Hlow; [done|]. simpl.
  unfold is_ascii_upper. intros [?%Z.leb_le ?%Z.leb_le]%andb_true_iff.
  destruct (Z.ltb_spec c 128); [done|lia].
Qed.

Lemma chr_regional (c : Z) :
  is_ascii_letter c = true ->
  chr (ascii_upper c + 127397) = Ret (regional_indicator (ascii_upper c)).
Proof.
  unfold is_ascii_letter, ascii_upper, is_ascii_lower, is_ascii_upper, chr,
    regional_indicator.
  intros Hc.
  replace (127462 + _) with ((if (97 <=? c) && (c <=? 122) then c - 32 else c) + 127397)
    by lia.
  destruct ((97 <=? c) && (c <=? 122)) eqn:Hlow.
  - apply andb_true_iff in Hlow as [?%Z.leb_le ?%Z.leb_le].
    destruct (Z.leb_spec 0 (c - 32 + 127397)); [|lia].
    destruct (Z.ltb_spec (c - 32 + 127397) 1114112); [done|lia].
  - simpl in Hc. apply andb_true_iff in Hc as [?%Z.leb_le ?%Z.leb_le].
    destruct (Z.leb_spec 0 (c + 127397)); [|lia].
    destruct (Z.ltb_spec (c + 127397) 1114112); [done|lia].
Qed.

(** C6.  The flag depends on the country code alone.  For two ASCII letters
    it is the pair of regional indicator symbols of the letters in upper
    case; for [None], the empty string and every string whose length is not
    two it is the globe. *)
Theorem get_country_flag_spec :
  (forall a b : Z,
     is_ascii_letter a = true -> is_ascii_letter b = true ->
     get_country_flag (VStr [a; b])
     = Ret [regional_indicator (ascii_upper a); regional_indicator (ascii_upper b)]) /\
  get_country_flag VNone = Ret [127757] /\
  get_country_flag (VStr []) = Ret [127757] /\
  (forall s : str, length s <> 2%nat -> get_country_flag (VStr s) = Ret [127757]).
Proof.
  repeat split.
  - intros a b Ha Hb. unfold get_country_flag. cbn -[chr upper_char].
    rewrite !upper_char_letter by done. cbn -[chr].
    rewrite !chr_regional by done. reflexivity.
  - intros s Hs. unfold get_country_flag.
    destruct (truthy (VStr s)); [|done]. cbn.
    destruct (Z.eqb_spec (Z.of_nat (length s)) 2); [lia|done].
Qed.

End FlagFacts.

(** ** Running the program *)

Ltac run :=
  unfold mbind, M_bind, fmap, M_fmap, mret, M_ret, lift, ask, gets, modify,
    try_except, try_finally; cbn beta iota.

Ltac db :=
  unfold execute_select_count, execute_insert, nextval, conn_commit, conn_rollback,
    conn_close, get_db_connection, set_session, http_get, flash, emit, visible.

Section Runs.
Context `{Platform}.

Lemma after_logged (w : world) (a b : list event) :
  after (logged w a) b = after w (a ++ b).
Proof. unfold after, logged. cbn. by rewrite app_assoc. Qed.

Lemma eq_str_true (v : value) (s : str) : eq_str v s = true <-> v = VStr s.
Proof.
  destruct v; simpl; try (split; [discriminate|congruence]).
  unfold str_eqb. rewrite bool_decide_eq_true. split; congruence.
Qed.

Lemma select_count_positive (rows : list ip_record) (key : option datum) :
  (0 <? select_count rows key) = true <-> row_exists rows key.
Proof.
  unfold row_exists. destruct key as [k|]; simpl.
  - rewrite Z.ltb_lt. split.
    + intros Hpos. destruct (filter (fun r => ip_address r = k) rows) as [|row l] eqn:Hf.
      * simpl in Hpos. lia.
      * assert (Hin : row ∈ filter (fun r => ip_address r = k) rows)
          by (rewrite Hf; apply list_elem_of_here).
        apply list_elem_of_filter in Hin as [<- Hin]. eauto.
    + intros (row & Hin & [= ->]).
      assert (Hin' : row ∈ filter (fun r => ip_address r = ip_address row) rows)
        by (by apply list_elem_of_filter).
      destruct (filter _ rows); [by apply elem_of_nil in Hin'|simpl; lia].
  - split; [done|]. by intros (row & _ & ?).
Qed.

(** *** The database functions *)

Lemma is_ip_in_database_run (ip : value) (e : environ) (w : world) :
  is_ip_in_database ip e w =
  (match sql_param INET ip with
   | Ret key => Ret (0 <? select_count (ip_records w) key)
   | Raise x => Raise x
   end, after w [SqlSelect ip]).
Proof.
  unfold is_ip_in_database, after. db. run.
  destruct (sql_param INET ip); reflexivity.
Qed.

Lemma save_ip_to_database_run (ip_data : dict) (e : environ) (w : world) :
  save_ip_to_database ip_data e w =
  match ip_data !! lit "ip" with
  | None => (Raise (KeyError (lit "ip")), w)
  | Some _ =>
      match insert_parameters ip_data with
      | Raise _ => (Ret false, after w [SqlRollback])
      | Ret p =>
          match bind_params p with
          | Raise _ => (Ret false, after w [SqlInsert (p_ip p); SqlRollback])
          | Ret _ =>
              if serial_max <? ip_records_id_seq w + 1
              then (Ret false, after w [SqlInsert (p_ip p); SqlRollback])
              else
                match proposed (CURRENT_TIMESTAMP e) (ip_records_id_seq w + 1) p with
                | Raise _ => (Ret false, drawn w [SqlInsert (p_ip p); SqlRollback])
                | Ret excluded =>
                    if pkey_violation excluded (ip_records w)
                    then (Ret false, drawn w [SqlInsert (p_ip p); SqlRollback])
                    else
                      (Ret true,
                       committed w (insert_on_conflict excluded (ip_records w))
                         [SqlInsert (p_ip p); SqlCommit])
                end
          end
      end
  end.
Proof.
  unfold save_ip_to_database, after, drawn, committed. db. run. unfold subscript.
  destruct (ip_data !! lit "ip") as [i|] eqn:Hip; [|reflexivity].
  destruct (insert_parameters ip_data) as [p|x]; [|reflexivity].
  cbn [ip_records ip_records_id_seq session trace default].
  destruct (bind_params p) as [[]|x];
    [|cbn [ip_records ip_records_id_seq session trace default];
      rewrite <- app_assoc; reflexivity].
  cbn [ip_records ip_records_id_seq session trace default].
  destruct (serial_max <? ip_records_id_seq w + 1);
    [cbn [ip_records ip_records_id_seq session trace default];
     rewrite <- app_assoc; reflexivity|].
  cbn [ip_records ip_records_id_seq session trace default].
  destruct (proposed _ _ p) as [row|x];
    [|cbn [ip_records ip_records_id_seq session trace default];
      rewrite <- app_assoc; reflexivity].
  cbn [ip_records ip_records_id_seq session trace default].
  destruct (pkey_violation row (ip_records w));
    cbn [ip_records ip_records_id_seq session trace default];
    rewrite <- app_assoc; reflexivity.
Qed.

(** What a record must have for its parameters to be read. *)
Lemma insert_parameters_keys (d : dict) (p : insert_params) :
  insert_parameters d = Ret p ->
  d !! lit "ip" = Some (p_ip p) /\
  exists loc : dict,
    d !! lit "location" = Some (VDict loc) /\
    loc !! lit "country" = Some (p_country p) /\
    loc !! lit "region" = Some (p_region p) /\
    loc !! lit "city" = Some (p_city p) /\
    loc !! lit "org" = Some (p_org p) /\
    d !! lit "vpn_detected" = Some (p_vpn_detected p) /\
    d !! lit "vpn_type" = Some (p_vpn_type p).
Proof.
  unfold insert_parameters, mbind, res_bind, subscript.
  destruct (d !! lit "ip") as [ip|]; [|done].
  destruct (d !! lit "location") as [[| | | | | |loc]|]; try done.
  destruct (loc !! lit "country") eqn:Hc; [|done].
  destruct (loc !! lit "region") eqn:Hr; [|done].
  destruct (loc !! lit "city") eqn:Ht; [|done].
  destruct (loc !! lit "org") eqn:Ho; [|done].
  destruct (d !! lit "vpn_detected"); [|done].
  destruct (d !! lit "vpn_type"); [|done].
  intros [= <-]. split; [done|]. exists loc. by repeat split.
Qed.

Lemma insert_parameters_ip (d : dict) (p : insert_params) :
  insert_parameters d = Ret p -> d !! lit "ip" = Some (p_ip p).
Proof. by intros [? _]%insert_parameters_keys. Qed.



(** Only [None] is bound to [NULL]. *)
Lemma sql_param_null (ty : coltype) (v : value) : sql_param ty v = Ret None <-> v = VNone.
Proof.
  split; [|by intros ->].
  destruct v; try done; cbn; by destruct (pg_in ty _).
Qed.

(** Once the parameters are bound, the proposed row is refused only for an
    address that is [NULL]. *)
Lemma bind_params_proposed (now next_id : Z) (p : insert_params) :
  bind_params p = Ret () ->
  (exists x : ip_record, proposed now next_id p = Ret x) \/
  (p_ip p = VNone /\ proposed now next_id p = Raise DatabaseError).
Proof.
  unfold bind_params, proposed. cbn [mbind res_bind].
  destruct (sql_param INET (p_ip p)) as [[k|]|] eqn:Hk; [| |done].
  - destruct (sql_param (VARCHAR 100) (p_country p)); [|done].
    destruct (sql_param (VARCHAR 100) (p_region p)); [|done].
    destruct (sql_param (VARCHAR 100) (p_city p)); [|done].
    destruct (sql_param TEXT (p_org p)); [|done].
    destruct (sql_param BOOLEAN (p_vpn_detected p)); [|done].
    destruct (sql_param (VARCHAR 50) (p_vpn_type p)); [|done].
    destruct (sql_param JSONB (p_raw_geo_data p)); [|done].
    intros _. left. by eexists.
  - intros _. right. split; [|done]. by apply (sql_param_null INET).
Qed.

Lemma proposed_bind_params (now next_id : Z) (p : insert_params) (x : ip_record) :
  proposed now next_id p = Ret x -> bind_params p = Ret ().
Proof.
  unfold bind_params, proposed. cbn [mbind res_bind].
  destruct (sql_param INET (p_ip p)) as [[k|]|]; try done.
  destruct (sql_param (VARCHAR 100) (p_country p)); [|done].
  destruct (sql_param (VARCHAR 100) (p_region p)); [|done].
  destruct (sql_param (VARCHAR 100) (p_city p)); [|done].
  destruct (sql_param TEXT (p_org p)); [|done].
  destruct (sql_param BOOLEAN (p_vpn_detected p)); [|done].
  destruct (sql_param (VARCHAR 50) (p_vpn_type p)); [|done].
  by destruct (sql_param JSONB (p_raw_geo_data p)).
Qed.

(** A successful call, in full. *)
Lemma save_ip_to_database_true (d : dict) (e : environ) (w w' : world) :
  save_ip_to_database d e w = (Ret true, w') ->
  exists (p : insert_params) (x : ip_record),
    insert_parameters d = Ret p /\
    proposed (CURRENT_TIMESTAMP e) (ip_records_id_seq w + 1) p = Ret x /\
    ip_records_id_seq w < serial_max /\
    w' = committed w (insert_on_conflict x (ip_records w)) [SqlInsert (p_ip p); SqlCommit].
Proof.
  rewrite save_ip_to_database_run.
  destruct (d !! lit "ip"); [|done].
  destruct (insert_parameters d) as [p|]; [|done].
  destruct (bind_params p) as [[]|]; [|done].
  destruct (Z.ltb_spec serial_max (ip_records_id_seq w + 1)); [done|].
  destruct (proposed _ _ p) as [x|] eqn:Hx; [|done].
  destruct (pkey_violation x (ip_records w)); [done|].
  intros [= <-]. exists p, x. repeat split; [done|lia].
Qed.

(** The call succeeds when the sequence has a value left, the row is
    accepted and its [id] is free or its address has a row. *)
Lemma save_ip_to_database_accepted
    (d : dict) (e : environ) (w : world) (p : insert_params) (x : ip_record) :
  insert_parameters d = Ret p ->
  proposed (CURRENT_TIMESTAMP e) (ip_records_id_seq w + 1) p = Ret x ->
  ip_records_id_seq w < serial_max ->
  pkey_violation x (ip_records w) = false ->
  save_ip_to_database d e w
  = (Ret true,
     committed w (insert_on_conflict x (ip_records w)) [SqlInsert (p_ip p); SqlCommit]).
Proof.
  intros Hp Hx Hroom Hid. rewrite save_ip_to_database_run.
  rewrite (insert_parameters_ip d p Hp), Hp.
  rewrite (proposed_bind_params _ _ _ _ Hx), Hx, Hid.
  destruct (Z.ltb_spec serial_max (ip_records_id_seq w + 1)); [lia|done].
Qed.

(** With the sequence at its last value the call fails and changes
    nothing. *)
Lemma save_ip_to_database_exhausted (d : dict) (e : environ) (w : world) :
  is_Some (d !! lit "ip") ->
  serial_max <= ip_records_id_seq w ->
  exists w' : world,
    save_ip_to_database d e w = (Ret false, w') /\
    ip_records w' = ip_records w /\
    ip_records_id_seq w' = ip_records_id_seq w.
Proof.
  intros [ip Hip] Hfull. rewrite save_ip_to_database_run, Hip.
  destruct (insert_parameters d) as [p|]; [|by eexists].
  destruct (bind_params p) as [[]|]; [|by eexists].
  destruct (Z.ltb_spec serial_max (ip_records_id_seq w + 1)); [by eexists|lia].
Qed.

(** *** [get_user_ip] *)

Lemma get_user_ip_run (e : environ) (w : world) :
  get_user_ip e w =
  if eq_str (candidate e) loopback
  then (Ret (match requests_get e ipify with
             | Some r => VStr (text r)
             | None => candidate e
             end), logged w [HttpGet ipify])
  else (Ret (candidate e), w).
Proof.
  assert (Hc : (if truthy (VStr (default [] (X_Forwarded_For e)))
                then VStr (strip (split_head (ord ",") (default [] (X_Forwarded_For e))))
                else from_option VStr VNone (remote_addr e)) = candidate e).
  { unfold candidate. by destruct (X_Forwarded_For e) as [[|c h]|]. }
  unfold get_user_ip. db. run. rewrite Hc. fold ipify.
  destruct (eq_str (candidate e) loopback); [|reflexivity].
  destruct (requests_get e ipify); reflexivity.
Qed.


(** *** [get_ip_info] *)

Lemma get_ip_info_from_run (ip : value) (e : environ) (w : world) :
  get_ip_info_from ip e w =
  (match sql_param INET ip with
   | Raise x => Raise x
   | Ret key =>
       match geo_data_for e ip with
       | VDict d =>
           match get_country_flag (default (VStr (lit "")) (d !! lit "country_code")) with
           | Ret flag => Ret (ip_info (0 <? select_count (ip_records w) key) ip d flag)
           | Raise x => Raise x
           end
       | _ => Raise AttributeError
       end
   end, after w (lookup_calls e ip)).
Proof.
  unfold get_ip_info_from, geo_data_for, lookup_calls. db. run.
  set (url := geo_url (IPAPI_TOKEN e) ip).
  set (w1 := {| ip_records := ip_records w; ip_records_id_seq := ip_records_id_seq w;
                session := session w; trace := trace w ++ [HttpGet url] |}).
  assert (Hdb : forall w2, w2 = w1 ->
            is_ip_in_database ip e w2 =
            (match sql_param INET ip with
             | Ret key => Ret (0 <? select_count (ip_records w) key)
             | Raise x => Raise x
             end, after w [HttpGet url; SqlSelect ip])).
  { intros w2 ->. rewrite is_ip_in_database_run. unfold after, w1. cbn.
    by rewrite <- app_assoc. }
  unfold response_json.
  destruct (requests_get e url) as [r|]; [destruct (json r) as [v|]|];
    rewrite (Hdb _ eq_refl);
    destruct (sql_param INET ip) as [key|x]; try reflexivity;
    change (default ?a (Some ?b)) with b; change (default ?a None) with a.
  destruct v; try reflexivity. cbn [get].
  destruct (get_country_flag _); reflexivity.
Qed.

Lemma get_ip_info_custom (s : str) (e : environ) (w : world) :
  s <> [] ->
  get_ip_info (Some s) e w =
  if validate_ip s then get_ip_info_from (VStr s) e w
  else (Ret (invalid_input s), w).
Proof.
  intros Hs. unfold get_ip_info. cbn [truthy].
  rewrite bool_decide_eq_false_2 by done. cbn [negb].
  destruct (validate_ip s); reflexivity.
Qed.

(** Without a custom address the subject is what [get_user_ip] returns. *)
Lemma get_ip_info_ambient (custom_ip : option str) (e : environ) (w : world) :
  custom_ip = None \/ custom_ip = Some [] ->
  get_ip_info custom_ip e w =
  match get_user_ip e w with
  | (Ret ip, w1) => get_ip_info_from ip e w1
  | (Raise x, w1) => (Raise x, w1)
  end.
Proof. intros [-> | ->]; reflexivity. Qed.

Lemma get_ip_info_subject
    (custom_ip : option str) (e : environ) (w w1 : world) (ip : value) :
  subject_of custom_ip e w ip w1 ->
  get_ip_info custom_ip e w = get_ip_info_from ip e w1.
Proof.
  intros [(s & -> & Hok & -> & ->) | [Hnone Huser]].
  - rewrite get_ip_info_custom by (by apply validate_ip_nonempty). by rewrite Hok.
  - rewrite get_ip_info_ambient by done. by rewrite Huser.
Qed.

(** The keys of the assembled record. *)
Lemma ip_info_keys (found : bool) (ip : value) (d : dict) (flag : str) :
  let r := ip_info found ip d flag in
  r !! lit "error" = None /\
  r !! lit "status" = Some (VStr (if found then lit "duplicate" else lit "new")) /\
  r !! lit "ip" = Some (default ip (d !! lit "ip")) /\
  r !! lit "vpn_detected" = Some (VBool false) /\
  r !! lit "vpn_type" = Some VNone /\
  exists loc : dict,
    r !! lit "location" = Some (VDict loc) /\
    loc !! lit "country" = Some (default (VStr (lit "Unknown")) (d !! lit "country")) /\
    loc !! lit "country_code" = Some (default (VStr (lit "")) (d !! lit "country_code")) /\
    loc !! lit "country_flag" = Some (VStr flag) /\
    loc !! lit "continent" = Some (default (VStr (lit "Unknown")) (d !! lit "continent")) /\
    loc !! lit "continent_code" = Some (default (VStr (lit "")) (d !! lit "continent_code")) /\
    loc !! lit "asn" = Some (default (VStr (lit "Unknown")) (d !! lit "asn")) /\
    loc !! lit "as_name" = Some (default (VStr (lit "Unknown")) (d !! lit "as_name")) /\
    loc !! lit "as_domain" = Some (default (VStr (lit "Unknown")) (d !! lit "as_domain")) /\
    loc !! lit "region" = None /\
    loc !! lit "city" = None /\
    loc !! lit "org" = None.
Proof.
  cbv zeta. repeat split. eexists. repeat split.
Qed.

(** Whatever [get_ip_info_from] returns is such a record. *)
Lemma get_ip_info_from_record (ip : value) (e : environ) (w w' : world) (r : dict) :
  get_ip_info_from ip e w = (Ret r, w') ->
  exists (key : option datum) (d : dict) (flag : str),
    sql_param INET ip = Ret key /\
    geo_data_for e ip = VDict d /\
    get_country_flag (default (VStr (lit "")) (d !! lit "country_code")) = Ret flag /\
    r = ip_info (0 <? select_count (ip_records w) key) ip d flag /\
    w' = after w (lookup_calls e ip).
Proof.
  rewrite get_ip_info_from_run. intros [= Hr <-].
  destruct (sql_param INET ip) as [key|]; [|done].
  destruct (geo_data_for e ip) as [| | | | | |d]; try done.
  destruct (get_country_flag _) as [flag|] eqn:Hflag; [|done].
  injection Hr as <-. by exists key, d, flag.
Qed.

(** A dictionary without [error] that [get_ip_info] returns comes from the
    lookup for the subject. *)
Lemma get_ip_info_record
    (custom_ip : option str) (e : environ) (w w' : world) (r : dict) :
  get_ip_info custom_ip e w = (Ret r, w') ->
  r !! lit "error" = None ->
  exists (ip : value) (w1 : world),
    subject_of custom_ip e w ip w1 /\ get_ip_info_from ip e w1 = (Ret r, w').
Proof.
  intros Hrun Hrec.
  assert (Hamb : custom_ip = None \/ custom_ip = Some [] ->
            exists ip w1, subject_of custom_ip e w ip w1 /\
                          get_ip_info_from ip e w1 = (Ret r, w')).
  { intros Hnone. rewrite get_ip_info_ambient in Hrun by done.
    destruct (get_user_ip e w) as [[ip|x] w1] eqn:Huser; [|done].
    exists ip, w1. split; [right|]; done. }
  destruct custom_ip as [[|c s]|]; [by apply Hamb; right| |by apply Hamb; left].
  rewrite get_ip_info_custom in Hrun by done.
  destruct (validate_ip (c :: s)) eqn:Hok.
  - exists (VStr (c :: s)), w. split; [left; by exists (c :: s)|done].
  - injection Hrun as <- _. discriminate Hrec.
Qed.

(** The parameters of the insert cannot be read from such a record: its
    [location] has no [region]. *)
Lemma insert_parameters_ip_info (found : bool) (ip : value) (d : dict) (flag : str) :
  insert_parameters (ip_info found ip d flag) = Raise (KeyError (lit "region")).
Proof. reflexivity. Qed.

Lemma save_ip_info_fails
    (found : bool) (ip : value) (d : dict) (flag : str) (e : environ) (w : world) :
  save_ip_to_database (ip_info found ip d flag) e w = (Ret false, after w [SqlRollback]).
Proof. rewrite save_ip_to_database_run, insert_parameters_ip_info. reflexivity. Qed.

(** *** The routes *)

Lemma api_save_ip_from_other (ip_data : dict) (status : value) (e : environ) (w : world) :
  ip_data !! lit "status" = Some status -> status <> VStr (lit "new") ->
  exists resp : http_response,
    api_save_ip_from ip_data e w = (Ret resp, w) /\ response_success resp = false.
Proof.
  intros Hstatus Hnew.
  assert (Hno : eq_str status (lit "new") = false).
  { destruct (eq_str status (lit "new")) eqn:Heq; [|done].
    by apply eq_str_true in Heq. }
  unfold api_save_ip_from. run. unfold subscript. rewrite Hstatus, Hno.
  eexists. split; reflexivity.
Qed.

Lemma api_save_ip_from_new
    (ip_data : dict) (e : environ) (w w' : world) (saved : bool) :
  ip_data !! lit "status" = Some (VStr (lit "new")) ->
  save_ip_to_database ip_data e w = (Ret saved, w') ->
  exists resp : http_response,
    api_save_ip_from ip_data e w = (Ret resp, w') /\ response_success resp = saved.
Proof.
  intros Hstatus Hsave.
  pose proof (save_ip_to_database_run ip_data e w) as Hrun.
  rewrite Hsave in Hrun.
  destruct (ip_data !! lit "ip") as [ip|] eqn:Hip; [|discriminate Hrun].
  unfold api_save_ip_from. run. unfold subscript.
  rewrite Hstatus. cbn [eq_str]. unfold str_eqb.
  rewrite bool_decide_eq_true_2 by done. rewrite Hsave, Hip.
  destruct saved; eexists; split; reflexivity.
Qed.

Lemma save_ip_from_other (data : dict) (status : value) (e : environ) (w : world) :
  data !! lit "status" = Some status -> status <> VStr (lit "new") ->
  save_ip_from data e w
  = (Ret (Redirect (lit "home")), logged w [Flash (lit "IP already exists in database.")]).
Proof.
  intros Hstatus Hnew.
  assert (Hno : eq_str status (lit "new") = false).
  { destruct (eq_str status (lit "new")) eqn:Heq; [|done].
    by apply eq_str_true in Heq. }
  unfold save_ip_from. db. run. unfold subscript. rewrite Hstatus, Hno.
  reflexivity.
Qed.

Lemma save_ip_from_new (data : dict) (e : environ) (w w' : world) (saved : bool) :
  data !! lit "status" = Some (VStr (lit "new")) ->
  save_ip_to_database data e w = (Ret saved, w') ->
  exists message : str,
    save_ip_from data e w = (Ret (Redirect (lit "home")), logged w' [Flash message]) /\
    (saved = false -> message = lit "Error saving IP to database.").
Proof.
  intros Hstatus Hsave.
  pose proof (save_ip_to_database_run data e w) as Hrun.
  rewrite Hsave in Hrun.
  destruct (data !! lit "ip") as [ip|] eqn:Hip; [|discriminate Hrun].
  unfold save_ip_from. db. run. unfold subscript.
  rewrite Hstatus. cbn [eq_str]. unfold str_eqb.
  rewrite bool_decide_eq_true_2 by done. rewrite Hsave, Hip.
  destruct saved; eexists; (split; [reflexivity|]); [discriminate|reflexivity].
Qed.

(** The routes resolve the address themselves and then go on as above. *)
Lemma api_save_ip_resolved (s : str) (e : environ) (w w1 w2 : world)
    (ip_data : dict) (resp : http_response) :
  requested_ip e w = (Ret s, w) -> s <> [] ->
  get_ip_info (Some s) e w = (Ret ip_data, w1) ->
  ip_data !! lit "error" = None ->
  api_save_ip_from ip_data e w1 = (Ret resp, w2) ->
  api_save_ip e w = (Ret resp, w2).
Proof.
  intros Hreq Hs Hinfo Herr Hfrom. unfold api_save_ip. run.
  rewrite Hreq. cbn [truthy]. rewrite bool_decide_eq_false_2 by done. cbn [negb].
  rewrite Hinfo, Herr, Hfrom. reflexivity.
Qed.

Lemma save_ip_resolved (s : str) (e : environ) (w w1 : world) (data : dict) :
  form_ip_to_save e = Some s -> s <> [] ->
  get_ip_info (Some s) e w = (Ret data, w1) ->
  save_ip e w = save_ip_from data e w1.
Proof.
  intros Hform Hs Hinfo. unfold save_ip. run.
  rewrite Hform. cbn [from_option truthy]. rewrite bool_decide_eq_false_2 by done.
  cbn [negb]. rewrite Hinfo. reflexivity.
Qed.

End Runs.

(** ** Resolution *)

Section Resolution.
Context `{Platform}.

(** C4.  A custom address that is not empty and fails the validator makes
    [get_ip_info] return, without any call to the provider or the
    database, the error dictionary that carries exactly that address, and
    no record; an address that passes the validator never yields a
    dictionary with an [error]. *)
Theorem get_ip_info_invalid_input (s : str) (e : environ) (w : world) :
  (s <> [] -> validate_ip s = false ->
   exists r : dict,
     get_ip_info (Some s) e w = (Ret r, w) /\
     r !! lit "error" = Some (VStr (lit "Invalid IP address format")) /\
     r !! lit "ip" = Some (VStr s) /\
     r !! lit "status" = None /\
     r !! lit "location" = None) /\
  (validate_ip s = true ->
   forall (r : dict) (w' : world),
     get_ip_info (Some s) e w = (Ret r, w') ->
     r !! lit "error" = None /\ is_Some (r !! lit "status")).
Proof.
  split.
  - intros Hs Hbad. exists (invalid_input s).
    rewrite get_ip_info_custom, Hbad by done. repeat split.
  - intros Hok r w' Hrun.
    rewrite get_ip_info_custom, Hok in Hrun by (by apply validate_ip_nonempty).
    apply get_ip_info_from_record in Hrun as (key & d & flag & _ & _ & _ & -> & _).
    split; [reflexivity|]. eexists. reflexivity.
Qed.

(** C2.  Whatever record [get_ip_info] returns, [save_ip_to_database]
    cannot save it: reading [region] (as [city] and [org]) from the
    record's [location] raises [KeyError], the handler rolls back and the
    function returns [False], with the rows and the sequence as they
    were. *)
Theorem pipeline_record_is_never_saved
    (custom_ip : option str) (e e' : environ) (w w1 w2 : world) (r : dict) :
  get_ip_info custom_ip e w = (Ret r, w1) ->
  r !! lit "error" = None ->
  (exists loc : value,
     r !! lit "location" = Some loc /\
     subscript loc (lit "region") = Raise (KeyError (lit "region")) /\
     subscript loc (lit "city") = Raise (KeyError (lit "city")) /\
     subscript loc (lit "org") = Raise (KeyError (lit "org"))) /\
  save_ip_to_database r e' w2 = (Ret false, after w2 [SqlRollback]) /\
  ip_records (after w2 [SqlRollback]) = ip_records w2 /\
  ip_records_id_seq (after w2 [SqlRollback]) = ip_records_id_seq w2.
Proof.
  intros Hrun Hrec.
  apply get_ip_info_record in Hrun as (ip & w0 & _ & Hrun); [|done].
  apply get_ip_info_from_record in Hrun as (key & d & flag & _ & _ & _ & -> & _).
  split; [|split; [apply save_ip_info_fails|done]].
  eexists. repeat split.
Qed.

End Resolution.

(** ** The fallback and the status *)

Section Lookup.
Context `{Platform}.

Lemma fallback_record_ip_info (found : bool) (ip : value) (d : dict) :
  Forall (fun k => d !! k = None) provider_fields ->
  fallback_record ip (ip_info found ip d [127757]) /\
  get_country_flag (default (VStr (lit "")) (d !! lit "country_code")) = Ret [127757].
Proof.
  unfold provider_fields. rewrite !Forall_cons.
  intros (Hip & Hasn & Hname & Hdom & Hcc & Hc & Hkc & Hk & _).
  unfold fallback_record, ip_info. rewrite Hip, Hasn, Hname, Hdom, Hcc, Hc, Hkc, Hk.
  split; [|reflexivity]. repeat split. eexists. repeat split.
Qed.

Lemma get_ip_info_from_fallback (ip : value) (e : environ) (w : world) (key : option datum) :
  sql_param INET ip = Ret key ->
  no_provider_data e ip ->
  exists r : dict,
    get_ip_info_from ip e w = (Ret r, after w (lookup_calls e ip)) /\
    fallback_record ip r /\
    r !! lit "status"
    = Some (VStr (if 0 <? select_count (ip_records w) key
                  then lit "duplicate" else lit "new")).
Proof.
  intros Hkey Hfail. rewrite get_ip_info_from_run, Hkey. unfold geo_data_for.
  destruct Hfail as [-> | [(a & -> & ->) | (a & d & -> & -> & Hd)]].
  - eexists. split; [reflexivity|]. split; [|reflexivity].
    repeat split. eexists. repeat split.
  - eexists. split; [reflexivity|]. split; [|reflexivity].
    repeat split. eexists. repeat split.
  - change (default (VDict (fallback ip)) (Some (VDict d))) with (VDict d).
    destruct (fallback_record_ip_info (0 <? select_count (ip_records w) key) ip d Hd)
      as [Hrec ->].
    eexists. split; [reflexivity|]. split; [done|reflexivity].
Qed.

(** C5, as the code has it.  For a subject (a custom address that passes
    the validator, or what [get_user_ip] returns) that the database can
    look up, [get_ip_info] returns the fallback record, not an error, when
    the request raises (a timeout, a failed connection), when the body of
    the response is not JSON, and when the body is a JSON object that holds
    none of the provider's fields.  The status code of the response plays
    no part: whenever the body is a JSON object, the record is assembled
    from that object. *)
Theorem get_ip_info_fallback
    (custom_ip : option str) (e : environ) (w w1 : world) (ip : value)
    (key : option datum) :
  subject_of custom_ip e w ip w1 ->
  sql_param INET ip = Ret key ->
  (no_provider_data e ip ->
   exists r : dict,
     get_ip_info custom_ip e w = (Ret r, after w1 (lookup_calls e ip)) /\
     fallback_record ip r /\
     r !! lit "status"
     = Some (VStr (if 0 <? select_count (ip_records w1) key
                   then lit "duplicate" else lit "new"))) /\
  (forall (a : response) (d : dict) (r : dict) (w' : world),
     requests_get e (geo_url (IPAPI_TOKEN e) ip) = Some a ->
     json a = Some (VDict d) ->
     get_ip_info custom_ip e w = (Ret r, w') ->
     exists flag : str,
       r = ip_info (0 <? select_count (ip_records w1) key) ip d flag).
Proof.
  intros Hsubject Hkey. rewrite (get_ip_info_subject _ _ _ _ _ Hsubject). split.
  - by apply get_ip_info_from_fallback.
  - intros a d r w' Ha Hd Hrun.
    apply get_ip_info_from_record in Hrun as (key' & d' & flag & Hkey' & Hgeo & _ & -> & _).
    unfold geo_data_for in Hgeo. rewrite Ha, Hd in Hgeo. injection Hgeo as <-.
    rewrite Hkey in Hkey'. injection Hkey' as <-. by exists flag.
Qed.


End Lookup.

(** ** Saving *)

Section Saving.
Context `{Platform}.

(** C8.  For a record whose status is not [new], neither route calls the
    database: [/api/save-ip] answers with [success] false and leaves the
    world as it was, [/save-ip] only flashes that the address exists.  For
    a record whose status is [new] both routes call [save_ip_to_database]
    with it; the world is the one that call leaves, and [/api/save-ip]
    answers with [success] true exactly when the call returned [True]. *)
Theorem save_guard (ip_data : dict) (status : value) (e : environ) (w : world) :
  ip_data !! lit "status" = Some status ->
  (status <> VStr (lit "new") ->
   (exists resp : http_response,
      api_save_ip_from ip_data e w = (Ret resp, w) /\
      response_success resp = false) /\
   save_ip_from ip_data e w
   = (Ret (Redirect (lit "home")),
      logged w [Flash (lit "IP already exists in database.")])) /\
  (status = VStr (lit "new") ->
   forall (saved : bool) (w' : world),
     save_ip_to_database ip_data e w = (Ret saved, w') ->
     (exists resp : http_response,
        api_save_ip_from ip_data e w = (Ret resp, w') /\
        response_success resp = saved) /\
     (exists message : str,
        save_ip_from ip_data e w
        = (Ret (Redirect (lit "home")), logged w' [Flash message]) /\
        (saved = false -> message = lit "Error saving IP to database."))).
Proof.
  intros Hstatus. split.
  - intros Hnew. split.
    + by apply (api_save_ip_from_other ip_data status).
    + by apply (save_ip_from_other ip_data status).
  - intros -> saved w' Hsave. split.
    + by apply api_save_ip_from_new.
    + by apply save_ip_from_new.
Qed.

(** C1, as the code has it.  The first resolution of an address that has no
    row reports [new]; saving that record fails and leaves the table as it
    was, so the next resolution reports [new] again, not [duplicate]. *)
Theorem resolve_save_resolve_stays_new
    (s : str) (key : option datum) (e1 e2 e3 : environ) (w w1 : world) (r1 : dict) :
  validate_ip s = true ->
  sql_param INET (VStr s) = Ret key ->
  ~ row_exists (ip_records w) key ->
  get_ip_info (Some s) e1 w = (Ret r1, w1) ->
  r1 !! lit "status" = Some (VStr (lit "new")) /\
  exists (resp : http_response) (w2 : world),
    save_ip_to_database r1 e2 w1 = (Ret false, w2) /\
    api_save_ip_from r1 e2 w1 = (Ret resp, w2) /\
    response_success resp = false /\
    ip_records w2 = ip_records w /\
    forall (r3 : dict) (w3 : world),
      get_ip_info (Some s) e3 w2 = (Ret r3, w3) ->
      r3 !! lit "status" = Some (VStr (lit "new")) /\
      r3 !! lit "status" <> Some (VStr (lit "duplicate")).
Proof.
  intros Hok Hkey Hfresh Hrun.
  assert (Hcount : forall rows, rows = ip_records w ->
            (0 <? select_count rows key) = false).
  { intros rows ->. destruct (0 <? select_count (ip_records w) key) eqn:Hc; [|done].
    by apply select_count_positive in Hc. }
  rewrite get_ip_info_custom, Hok in Hrun by (by apply validate_ip_nonempty).
  apply get_ip_info_from_record in Hrun as (key' & d & flag & Hkey' & _ & _ & -> & ->).
  rewrite Hkey in Hkey'. injection Hkey' as <-.
  rewrite (Hcount _ eq_refl).
  split; [reflexivity|].
  pose proof (save_ip_info_fails false (VStr s) d flag e2
                (after w (lookup_calls e1 (VStr s)))) as Hsave.
  destruct (api_save_ip_from_new (ip_info false (VStr s) d flag) e2 _ _ false
              eq_refl Hsave) as (resp & Hresp & Hsucc).
  exists resp, (after (after w (lookup_calls e1 (VStr s))) [SqlRollback]).
  split; [done|]. split; [done|]. split; [done|]. split; [reflexivity|].
  intros r3 w3 Hrun3.
  rewrite get_ip_info_custom, Hok in Hrun3 by (by apply validate_ip_nonempty).
  apply get_ip_info_from_record in Hrun3 as (key' & d3 & flag3 & Hkey' & _ & _ & -> & _).
  rewrite Hkey in Hkey'. injection Hkey' as <-.
  rewrite Hcount by reflexivity. split; [reflexivity|discriminate].
Qed.

End Saving.

(** ** The insert-or-update statement *)

Section Upsert.
Context `{Platform}.

Lemma conflict_iff (x : ip_record) (rows : list ip_record) :
  Exists (fun r => ip_address r = ip_address x) rows <-> ip_address x ∈ keys rows.
Proof.
  unfold keys. rewrite Exists_exists, list_elem_of_fmap.
  split; intros (r & ? & ?); exists r; done.
Qed.

Lemma keys_update (x : ip_record) (rows : list ip_record) :
  keys ((fun r => if bool_decide (ip_address r = ip_address x)
                  then on_conflict_update x r else r) <$> rows) = keys rows.
Proof.
  unfold keys. rewrite <- list_fmap_compose. apply list_fmap_ext.
  intros i r _. simpl. by case_bool_decide.
Qed.

(** The statement keeps the addresses apart. *)
Lemma unique_insert_on_conflict (x : ip_record) (rows : list ip_record) :
  unique rows -> unique (insert_on_conflict x rows).
Proof.
  unfold unique, insert_on_conflict. intros Hrows.
  case_bool_decide as Hc.
  - by rewrite keys_update.
  - rewrite conflict_iff in Hc. unfold keys in *. rewrite fmap_app. simpl.
    apply NoDup_app. split; [done|]. split; [|apply NoDup_singleton].
    intros k Hk ->%list_elem_of_singleton. done.
Qed.

Lemma rows_for_absent (k : datum) (rows : list ip_record) :
  k ∉ keys rows -> rows_for k rows = [].
Proof.
  unfold rows_for, keys. induction rows as [|r rows IH]; [done|].
  rewrite fmap_cons, not_elem_of_cons. intros [Hr Hrows].
  rewrite filter_cons_False by congruence. auto.
Qed.

Lemma rows_for_update_absent (x : ip_record) (rows : list ip_record) :
  ip_address x ∉ keys rows ->
  rows_for (ip_address x)
    ((fun r => if bool_decide (ip_address r = ip_address x)
               then on_conflict_update x r else r) <$> rows) = [].
Proof.
  intros Hk. apply rows_for_absent. by rewrite keys_update.
Qed.

(** After the statement there is exactly one row for the proposed address,
    and it holds the proposed columns. *)
Lemma rows_for_insert_on_conflict (x : ip_record) (rows : list ip_record) :
  unique rows ->
  exists row : ip_record,
    rows_for (ip_address x) (insert_on_conflict x rows) = [row] /\
    ip_address row = ip_address x /\
    country row = country x /\ region row = region x /\ city row = city x /\
    org row = org x /\ vpn_detected row = vpn_detected x /\
    vpn_type row = vpn_type x /\ raw_geo_data row = raw_geo_data x /\
    timestamp row = timestamp x.
Proof.
  unfold insert_on_conflict. intros Hrows. case_bool_decide as Hc.
  - rewrite conflict_iff in Hc. clear -Hrows Hc.
    induction rows as [|r rows IH]; [by apply elem_of_nil in Hc|].
    unfold unique, keys in Hrows. rewrite fmap_cons in Hrows.
    apply NoDup_cons in Hrows as [Hr Hrows].
    rewrite fmap_cons. unfold rows_for.
    destruct (decide (ip_address r = ip_address x)) as [Heq|Hne].
    + rewrite bool_decide_eq_true_2 by done.
      rewrite filter_cons_True by done.
      exists (on_conflict_update x r). split; [|by repeat split].
      f_equal. apply rows_for_update_absent. by rewrite <- Heq.
    + rewrite bool_decide_eq_false_2 by done.
      rewrite filter_cons_False by done.
      apply IH; [done|].
      unfold keys in Hc. rewrite fmap_cons in Hc.
      apply elem_of_cons in Hc as [Hc|Hc]; [congruence|done].
  - rewrite conflict_iff in Hc. exists x. split; [|by repeat split].
    unfold rows_for. rewrite filter_app. fold (rows_for (ip_address x) rows).
    rewrite rows_for_absent by done. rewrite filter_cons_True by done.
    reflexivity.
Qed.

Lemma unique_rows_for (k : datum) (rows : list ip_record) :
  unique rows -> (length (rows_for k rows) <= 1)%nat.
Proof.
  unfold unique, keys, rows_for.
  induction rows as [|r rows IH]; intros Hrows; [simpl; lia|].
  rewrite fmap_cons in Hrows. apply NoDup_cons in Hrows as [Hr Hrows].
  destruct (decide (ip_address r = k)) as [<-|Hne].
  - rewrite filter_cons_True by done.
    fold (rows_for (ip_address r) rows). rewrite rows_for_absent by done. simpl; lia.
  - rewrite filter_cons_False by done. auto.
Qed.

(** What [save_ip_to_database] does to the rows and to the sequence. *)
Lemma save_ip_to_database_rows (ip_data : dict) (e : environ) (w : world) :
  let '(r, w') := save_ip_to_database ip_data e w in
  (r = Ret true /\
   exists (p : insert_params) (x : ip_record),
     insert_parameters ip_data = Ret p /\
     proposed (CURRENT_TIMESTAMP e) (ip_records_id_seq w + 1) p = Ret x /\
     ip_records w' = insert_on_conflict x (ip_records w)) \/
  (r <> Ret true /\
   ip_records w' = ip_records w /\
   (ip_records_id_seq w' = ip_records_id_seq w \/
    ip_records_id_seq w' = ip_records_id_seq w + 1)).
Proof.
  rewrite save_ip_to_database_run.
  destruct (ip_data !! lit "ip") as [i|] eqn:Hip;
    [|right; split; [done|]; split; [done|]; by left].
  destruct (insert_parameters ip_data) as [p|] eqn:Hp;
    [|right; split; [done|]; split; [done|]; by left].
  destruct (bind_params p) as [[]|] eqn:Hb;
    [|right; split; [done|]; split; [done|]; by left].
  destruct (serial_max <? ip_records_id_seq w + 1);
    [right; split; [done|]; split; [done|]; by left|].
  destruct (proposed _ _ p) as [x|] eqn:Hx;
    [|right; split; [done|]; split; [done|]; by right].
  destruct (pkey_violation x (ip_records w));
    [right; split; [done|]; split; [done|]; by right|].
  left. split; [done|]. by exists p, x.
Qed.

Lemma proposed_columns (now next_id : Z) (p : insert_params) (x : ip_record) :
  proposed now next_id p = Ret x ->
  sql_param INET (p_ip p) = Ret (Some (ip_address x)) /\
  sql_param (VARCHAR 100) (p_country p) = Ret (country x) /\
  timestamp x = now.
Proof.
  unfold proposed. cbn [mbind res_bind].
  destruct (sql_param INET (p_ip p)) as [[k|]|]; try done.
  destruct (sql_param (VARCHAR 100) (p_country p)); [|done].
  destruct (sql_param (VARCHAR 100) (p_region p)); [|done].
  destruct (sql_param (VARCHAR 100) (p_city p)); [|done].
  destruct (sql_param TEXT (p_org p)); [|done].
  destruct (sql_param BOOLEAN (p_vpn_detected p)); [|done].
  destruct (sql_param (VARCHAR 50) (p_vpn_type p)); [|done].
  destruct (sql_param JSONB (p_raw_geo_data p)); [|done].
  by intros [= <-].
Qed.

Lemma unique_saves (calls : list (dict * environ)) (w : world) :
  unique (ip_records w) -> unique (ip_records (saves calls w)).
Proof.
  revert w. induction calls as [|[ip_data e] calls IH]; intros w Hw; [done|].
  simpl. apply IH.
  pose proof (save_ip_to_database_rows ip_data e w) as Hsave.
  destruct (save_ip_to_database ip_data e w) as [r w']. cbn [snd].
  destruct Hsave as [(_ & p & x & _ & _ & ->) | (_ & -> & _)]; [|done].
  by apply unique_insert_on_conflict.
Qed.

(** C9.  Starting from a table without two rows for one address (an empty
    one, for instance), after any sequence of calls of
    [save_ip_to_database] the table has at most one row for every address.
    Two successful calls for the same address leave exactly one row for it,
    which holds the country of the second call and the time of the second
    call.  A call that does not succeed leaves the rows as they were.  The
    sequence of ids is not one of the rows: a statement that fails while
    it runs has drawn an id, and the rollback does not give it back.  So
    it is for a record whose address is [None], which fails on
    [NOT NULL]. *)
Theorem save_ip_to_database_upsert :
  (forall (calls : list (dict * environ)) (w : world) (k : datum),
     unique (ip_records w) ->
     unique (ip_records (saves calls w)) /\
     (length (rows_for k (ip_records (saves calls w))) <= 1)%nat) /\
  (forall (d1 d2 : dict) (e1 e2 : environ) (w w1 w2 : world)
          (p1 p2 : insert_params) (k : datum),
     unique (ip_records w) ->
     insert_parameters d1 = Ret p1 ->
     insert_parameters d2 = Ret p2 ->
     sql_param INET (p_ip p1) = Ret (Some k) ->
     sql_param INET (p_ip p2) = Ret (Some k) ->
     save_ip_to_database d1 e1 w = (Ret true, w1) ->
     save_ip_to_database d2 e2 w1 = (Ret true, w2) ->
     exists row : ip_record,
       rows_for k (ip_records w2) = [row] /\
       sql_param (VARCHAR 100) (p_country p2) = Ret (country row) /\
       timestamp row = CURRENT_TIMESTAMP e2) /\
  (forall (d : dict) (e : environ) (w w' : world) (r : res bool),
     save_ip_to_database d e w = (r, w') ->
     r <> Ret true ->
     ip_records w' = ip_records w /\
     (ip_records_id_seq w' = ip_records_id_seq w \/
      ip_records_id_seq w' = ip_records_id_seq w + 1)) /\
  (forall (d : dict) (e : environ) (w : world) (p : insert_params),
     insert_parameters d = Ret p ->
     bind_params p = Ret () ->
     p_ip p = VNone ->
     ip_records_id_seq w < serial_max ->
     save_ip_to_database d e w = (Ret false, drawn w [SqlInsert VNone; SqlRollback])).
Proof.
  split; [|split; [|split]].
  - intros calls w k Hw. split; [by apply unique_saves|].
    by apply unique_rows_for, unique_saves.
  - intros d1 d2 e1 e2 w w1 w2 p1 p2 k Hw Hp1 Hp2 Hk1 Hk2 Hs1 Hs2.
    pose proof (save_ip_to_database_rows d1 e1 w) as H1. rewrite Hs1 in H1.
    destruct H1 as [(_ & q & x1 & _ & _ & Hrows1) | [? _]]; [|done].
    pose proof (save_ip_to_database_rows d2 e2 w1) as H2. rewrite Hs2 in H2.
    destruct H2 as [(_ & p & x2 & Hp & Hx2 & Hrows2) | [? _]]; [|done].
    rewrite Hp2 in Hp. injection Hp as <-.
    apply proposed_columns in Hx2 as (Hk & Hc & Ht).
    rewrite Hk2 in Hk. injection Hk as ->.
    destruct (rows_for_insert_on_conflict x2 (ip_records w1))
      as (row & Hrow & _ & Hcountry & _ & _ & _ & _ & _ & _ & Htime).
    { rewrite Hrows1. by apply unique_insert_on_conflict. }
    exists row. rewrite Hrows2. split; [done|].
    rewrite Hcountry, Htime. done.
  - intros d e w w' r Hs Hr.
    pose proof (save_ip_to_database_rows d e w) as Hrows. rewrite Hs in Hrows.
    destruct Hrows as [[? _] | [_ ?]]; done.
  - intros d e w p Hp Hb Hnull Hroom.
    rewrite save_ip_to_database_run, (insert_parameters_ip d p Hp), Hp, Hb.
    destruct (Z.ltb_spec serial_max (ip_records_id_seq w + 1)); [lia|].
    destruct (bind_params_proposed (CURRENT_TIMESTAMP e) (ip_records_id_seq w + 1) p Hb)
      as [[x Hx]|[_ ->]].
    + apply proposed_columns in Hx as (Hk & _). rewrite Hnull in Hk. discriminate Hk.
    + by rewrite Hnull.
Qed.

End Upsert.

(** ** The client's address *)

Section ClientAddress.
Context `{Platform}.

(** C10.  When the forwarding header is present and not empty, the address
    is the first entry of its comma-separated list with the white space
    around it removed; otherwise it is the peer's address.  When that
    address is the loopback one, it is replaced by the text of the
    response of the address service, whatever the status and the text of
    that response are, and kept only when the request to the service
    raises; no other address causes a request. *)
Theorem get_user_ip_spec (e : environ) (w : world) :
  (forall (pre t post : str) (others : list str),
     X_Forwarded_For e = Some (join (ord ",") ((pre ++ t ++ post) :: others)) ->
     join (ord ",") ((pre ++ t ++ post) :: others) <> [] ->
     ord "," ∉ pre ++ t ++ post ->
     forallb is_space pre = true -> forallb is_space post = true -> trimmed t ->
     candidate e = VStr t) /\
  (X_Forwarded_For e = None \/ X_Forwarded_For e = Some [] ->
   candidate e = from_option VStr VNone (remote_addr e)) /\
  (candidate e <> VStr loopback -> get_user_ip e w = (Ret (candidate e), w)) /\
  (candidate e = VStr loopback ->
   forall a : response,
     requests_get e ipify = Some a ->
     get_user_ip e w = (Ret (VStr (text a)), logged w [HttpGet ipify])) /\
  (candidate e = VStr loopback ->
   requests_get e ipify = None ->
   get_user_ip e w = (Ret (VStr loopback), logged w [HttpGet ipify])).
Proof.
  repeat split.
  - intros pre t post others Hh Hne Hcomma Hpre Hpost Ht.
    unfold candidate. rewrite Hh.
    destruct (join (ord ",") ((pre ++ t ++ post) :: others)) as [|c h] eqn:Hj; [done|].
    rewrite <- Hj, split_head_join by done. by rewrite strip_spec.
  - unfold candidate. by intros [-> | ->].
  - intros Hc. rewrite get_user_ip_run.
    destruct (eq_str (candidate e) loopback) eqn:Heq; [|done].
    by apply eq_str_true in Heq.
  - intros Hc a Ha. rewrite get_user_ip_run, Ha, Hc. reflexivity.
  - intros Hc Ha. rewrite get_user_ip_run, Ha, Hc. reflexivity.
Qed.

End ClientAddress.

(** ** The strings the validator accepts *)

Section Language.

(** X1.  The strings [validate_ip] accepts are exactly the four octets
    joined by dots, and those followed by one line feed. *)
Theorem validate_ip_accepts_exactly (s : str) :
  validate_ip s = true <->
  exists a b c d : str,
    octet a /\ octet b /\ octet c /\ octet d /\
    (s = dotted_quad a b c d \/ s = dotted_quad a b c d ++ [10]).
Proof. apply validate_ip_iff. Qed.

Lemma octet_digits (o : str) : octet o -> Forall digit_or_dot o.
Proof.
  intros (_ & Hd & _). apply Forall_forall. intros c Hc. left.
  rewrite forallb_forall in Hd. apply Hd. by apply list_elem_of_In.
Qed.

Lemma dotted_quad_shape (a b c d : str) :
  octet a -> octet b -> octet c -> octet d ->
  (7 <= length (dotted_quad a b c d) <= 15)%nat /\
  Forall digit_or_dot (dotted_quad a b c d).
Proof.
  intros Ha Hb Hc Hd. split.
  - destruct Ha as (Ha & _), Hb as (Hb & _), Hc as (Hc & _), Hd as (Hd & _).
    unfold dotted_quad. rewrite !length_app; simpl; rewrite !length_app; simpl;
      rewrite !length_app; simpl. lia.
  - unfold dotted_quad.
    rewrite !Forall_app, !Forall_cons, !Forall_app, !Forall_cons, !Forall_app, !Forall_cons.
    repeat split; try (by apply octet_digits); by right.
Qed.

(** X2.  A string that [validate_ip] accepts is, up to one line feed at
    its end, 7 to 15 characters long, and each of them is a digit or a
    dot. *)
Theorem validate_ip_shape (s : str) :
  validate_ip s = true ->
  exists body : str,
    (s = body \/ s = body ++ [10]) /\
    (7 <= length body <= 15)%nat /\
    Forall digit_or_dot body.
Proof.
  intros (a & b & c & d & Ha & Hb & Hc & Hd & Hs)%validate_ip_iff.
  exists (dotted_quad a b c d). split; [done|]. by apply dotted_quad_shape.
Qed.

End Language.

(** ** Flags of ASCII pairs *)

Section Flags.
Context `{Platform}.

Lemma upper_char_ascii (c : Z) : 0 <= c < 128 -> upper_char c = [ascii_upper c].
Proof.
  intros Hc. unfold upper_char, ascii_upper.
  destruct (is_ascii_lower c); [done|].
  destruct (Z.ltb_spec c 128); [done|lia].
Qed.

Lemma ascii_upper_range (c : Z) : 0 <= c < 128 -> 0 <= ascii_upper c < 128.
Proof.
  unfold ascii_upper, is_ascii_lower. intros Hc.
  destruct ((97 <=? c) && (c <=? 122)) eqn:Hl; [|done].
  apply andb_true_iff in Hl as [?%Z.leb_le ?%Z.leb_le]. lia.
Qed.

Lemma chr_shift (c : Z) : 0 <= c < 128 -> chr (c + 127397) = Ret (c + 127397).
Proof.
  intros Hc. unfold chr.
  destruct (Z.leb_spec 0 (c + 127397)); [|lia].
  destruct (Z.ltb_spec (c + 127397) 1114112); [done|lia].
Qed.

(** X3.  For two ASCII characters, letters or not, [get_country_flag]
    returns the two characters that lie 127397 above their upper-case
    forms; it does not return the globe, and the case in which the two are
    written makes no difference. *)
Theorem get_country_flag_ascii_pair (a b : Z) :
  0 <= a < 128 -> 0 <= b < 128 ->
  get_country_flag (VStr [a; b]) = Ret [ascii_upper a + 127397; ascii_upper b + 127397] /\
  get_country_flag (VStr [a; b]) <> Ret [127757] /\
  get_country_flag (VStr [ascii_upper a; ascii_upper b]) = get_country_flag (VStr [a; b]).
Proof.
  intros Ha Hb.
  assert (Hflag : forall x y, 0 <= x < 128 -> 0 <= y < 128 ->
            get_country_flag (VStr [x; y])
            = Ret [ascii_upper x + 127397; ascii_upper y + 127397]).
  { intros x y Hx Hy. unfold get_country_flag. cbn -[chr upper_char].
    rewrite !upper_char_ascii by done. cbn -[chr].
    rewrite !chr_shift by (by apply ascii_upper_range). reflexivity. }
  assert (Hidem : forall x, 0 <= x < 128 -> ascii_upper (ascii_upper x) = ascii_upper x).
  { intros x Hx. unfold ascii_upper at 2 3, is_ascii_lower.
    destruct ((97 <=? x) && (x <=? 122)) eqn:Hl; unfold ascii_upper, is_ascii_lower.
    - apply andb_true_iff in Hl as [?%Z.leb_le ?%Z.leb_le].
      destruct (Z.leb_spec 97 (x - 32)); [lia|done].
    - by rewrite Hl. }
  split; [by apply Hflag|]. split.
  - rewrite Hflag by done. intros Heq. discriminate Heq.
  - rewrite !Hflag by (done || by apply ascii_upper_range).
    by rewrite !Hidem.
Qed.

End Flags.

(** ** Lookups and saves *)

Section Table.
Context `{Platform}.

(** X4.  [is_ip_in_database] makes one query and changes nothing else.
    For [None] it answers [False]; for a value that the column type of the
    address refuses it raises the error of the database; for any other
    value it answers [True] exactly when some row has that address. *)
Theorem is_ip_in_database_spec (ip : value) (e : environ) (w : world) :
  exists r : res bool,
    is_ip_in_database ip e w = (r, after w [SqlSelect ip]) /\
    (ip = VNone -> r = Ret false) /\
    (ip <> VNone -> pg_in INET ip = None -> r = Raise DatabaseError) /\
    (forall k : datum,
       ip <> VNone -> pg_in INET ip = Some k ->
       exists b : bool,
         r = Ret b /\
         (b = true <-> exists row : ip_record, row ∈ ip_records w /\ ip_address row = k)).
Proof.
  rewrite is_ip_in_database_run. eexists. split; [reflexivity|].
  split; [by intros ->|]. split.
  - intros Hip Hno. destruct ip; try done; cbn; by rewrite Hno.
  - intros k Hip Hk.
    assert (Hp : sql_param INET ip = Ret (Some k)).
    { destruct ip; try done; cbn; by rewrite Hk. }
    rewrite Hp. eexists. split; [reflexivity|].
    rewrite select_count_positive. unfold row_exists.
    split; intros (row & Hin & Hrow); exists row; split; congruence.
Qed.

Lemma proposed_address (now next_id : Z) (p : insert_params) (x : ip_record) :
  proposed now next_id p = Ret x ->
  sql_param INET (p_ip p) = Ret (Some (ip_address x)) /\ id x = next_id.
Proof.
  unfold proposed, mbind, res_bind. intros Hx.
  repeat case_match; try discriminate. injection Hx as <-. by simplify_eq/=.
Qed.

(** The proposed row depends on the sequence through its [id] alone. *)
Lemma proposed_next_id (now id1 id2 : Z) (p : insert_params) (x : ip_record) :
  proposed now id1 p = Ret x ->
  exists x' : ip_record,
    proposed now id2 p = Ret x' /\
    ip_address x' = ip_address x /\
    forall r : ip_record, on_conflict_update x' r = on_conflict_update x r.
Proof.
  unfold proposed, mbind, res_bind. intros Hx.
  repeat case_match; try discriminate. injection Hx as <-.
  eexists. split; [reflexivity|]. by split.
Qed.

Lemma insert_on_conflict_has (x : ip_record) (rows : list ip_record) :
  exists row : ip_record,
    row ∈ insert_on_conflict x rows /\ ip_address row = ip_address x.
Proof.
  unfold insert_on_conflict. case_bool_decide as Hc.
  - apply Exists_exists in Hc as (r & Hin & Hr).
    exists (on_conflict_update x r). split; [|done].
    apply list_elem_of_fmap. exists r. split; [|done].
    by rewrite bool_decide_eq_true_2.
  - exists x. split; [|done]. apply elem_of_app. right. apply list_elem_of_here.
Qed.

(** X5.  After a call of [save_ip_to_database] that returned [True],
    [is_ip_in_database] answers [True] for the address of the saved record,
    whatever the request in which it is asked. *)
Theorem save_then_lookup (d : dict) (ip : value) (e e' : environ) (w w' : world) :
  save_ip_to_database d e w = (Ret true, w') ->
  d !! lit "ip" = Some ip ->
  is_ip_in_database ip e' w' = (Ret true, after w' [SqlSelect ip]).
Proof.
  intros (p & x & Hp & Hx & _ & ->)%save_ip_to_database_true Hip.
  apply insert_parameters_ip in Hp. rewrite Hip in Hp. injection Hp as ->.
  apply proposed_address in Hx as [Hkey _].
  rewrite is_ip_in_database_run, Hkey.
  destruct (insert_on_conflict_has x (ip_records w)) as (row & Hin & Hrow).
  assert (Hpos : (0 <? select_count (insert_on_conflict x (ip_records w))
                         (Some (ip_address x))) = true).
  { apply select_count_positive. exists row. split; [done|congruence]. }
  cbn [ip_records committed]. by rewrite Hpos.
Qed.

Lemma rows_for_insert_other (x : ip_record) (rows : list ip_record) (k : datum) :
  ip_address x <> k -> rows_for k (insert_on_conflict x rows) = rows_for k rows.
Proof.
  intros Hk. unfold insert_on_conflict, rows_for. case_bool_decide as Hc.
  - clear Hc. induction rows as [|r rows IH]; [done|].
    rewrite fmap_cons. case_bool_decide as Hr.
    + rewrite (filter_cons_False _ (on_conflict_update x r)) by (simpl; congruence).
      rewrite (filter_cons_False _ r) by (simpl; congruence). apply IH.
    + destruct (decide (ip_address r = k)).
      * rewrite !filter_cons_True by done. by rewrite IH.
      * rewrite !filter_cons_False by done. apply IH.
  - rewrite filter_app, filter_cons_False by done. by rewrite filter_nil, app_nil_r.
Qed.

(** X6.  A call of [save_ip_to_database], whatever it returns or
    raises, leaves the rows of every address other than the record's as
    they were. *)
Theorem save_other_addresses
    (d : dict) (e : environ) (w w' : world) (r : res bool) (k : datum) :
  save_ip_to_database d e w = (r, w') ->
  (forall ip : value, d !! lit "ip" = Some ip -> sql_param INET ip <> Ret (Some k)) ->
  rows_for k (ip_records w') = rows_for k (ip_records w).
Proof.
  intros Hsave Hother.
  pose proof (save_ip_to_database_rows d e w) as Hrows. rewrite Hsave in Hrows.
  destruct Hrows as [(_ & p & x & Hp & Hx & ->) | (_ & -> & _)]; [|done].
  apply rows_for_insert_other. intros <-.
  apply insert_parameters_ip in Hp. apply proposed_address in Hx as [Hx _].
  by apply (Hother _ Hp).
Qed.

Lemma insert_on_conflict_columns (x r : ip_record) (rows : list ip_record) :
  r ∈ insert_on_conflict x rows -> ip_address r = ip_address x ->
  on_conflict_update x r = r.
Proof.
  unfold insert_on_conflict. case_bool_decide as Hc.
  - intros (r0 & -> & Hin)%list_elem_of_fmap. case_bool_decide as Hr0; [done|].
    intros Heq. done.
  - rewrite conflict_iff in Hc.
    intros [Hin | ->%list_elem_of_singleton]%elem_of_app Heq.
    + destruct Hc. rewrite <- Heq. apply list_elem_of_fmap. by exists r.
    + by destruct x.
Qed.

Lemma insert_on_conflict_again (x x' : ip_record) (rows : list ip_record) :
  ip_address x' = ip_address x ->
  (forall r, on_conflict_update x' r = on_conflict_update x r) ->
  insert_on_conflict x' (insert_on_conflict x rows) = insert_on_conflict x rows.
Proof.
  intros Hk Hcols.
  destruct (insert_on_conflict_has x rows) as (row & Hin & Hrow).
  unfold insert_on_conflict at 1. rewrite bool_decide_eq_true_2.
  - rewrite <- (list_fmap_id (insert_on_conflict x rows)) at 2.
    apply Forall_fmap_ext_1, Forall_forall. intros r Hr.
    case_bool_decide as Heq; [|done].
    rewrite Hcols. apply (insert_on_conflict_columns x r rows); congruence.
  - apply Exists_exists. exists row. split; [done|congruence].
Qed.

(** X7.  After a call that saved a record, saving the same record again
    at the same time of the clock succeeds again, as long as the sequence
    of ids has a value left, and leaves the rows as the first call left
    them; only the sequence has advanced, once for each call.  When the
    first call drew the last value of the sequence, the second fails and
    leaves the rows and the sequence as they were. *)
Theorem save_twice (d : dict) (e : environ) (w w1 : world) :
  save_ip_to_database d e w = (Ret true, w1) ->
  (ip_records_id_seq w1 < serial_max ->
   exists w2 : world,
     save_ip_to_database d e w1 = (Ret true, w2) /\
     ip_records w2 = ip_records w1 /\
     ip_records_id_seq w2 = ip_records_id_seq w + 2) /\
  (serial_max <= ip_records_id_seq w1 ->
   exists w2 : world,
     save_ip_to_database d e w1 = (Ret false, w2) /\
     ip_records w2 = ip_records w1 /\
     ip_records_id_seq w2 = ip_records_id_seq w1).
Proof.
  intros Hsave.
  pose proof Hsave as (p & x & Hp & Hx & _ & ->)%save_ip_to_database_true.
  split.
  - cbn [ip_records_id_seq committed]. intros Hroom.
    destruct (proposed_next_id _ _ (ip_records_id_seq w + 1 + 1) p x Hx)
      as (x' & Hx' & Hk & Hcols).
    eexists. split.
    + apply (save_ip_to_database_accepted d e _ p x'); [done|done|done|].
      cbn [ip_records committed]. unfold pkey_violation.
      destruct (insert_on_conflict_has x (ip_records w)) as (row & Hin & Hrow).
      rewrite bool_decide_eq_true_2; [done|].
      apply Exists_exists. exists row. split; [done|congruence].
    + cbn [ip_records committed ip_records_id_seq].
      split; [|lia]. by apply insert_on_conflict_again.
  - intros Hfull. apply save_ip_to_database_exhausted; [|done].
    rewrite (insert_parameters_ip d p Hp). by eexists.
Qed.

(** X8.  A call of [save_ip_to_database] that returns [True] advances
    the sequence of ids by one.  When the address already has a row, the
    ids and the addresses of all rows stay as they were; when it has none,
    one row is appended, and its id is the next of the sequence. *)
Theorem save_ids (d : dict) (e : environ) (w w' : world) :
  save_ip_to_database d e w = (Ret true, w') ->
  ip_records_id_seq w' = ip_records_id_seq w + 1 /\
  exists (ip : value) (k : datum),
    d !! lit "ip" = Some ip /\ sql_param INET ip = Ret (Some k) /\
    (k ∈ keys (ip_records w) ->
     id <$> ip_records w' = id <$> ip_records w /\
     keys (ip_records w') = keys (ip_records w)) /\
    (k ∉ keys (ip_records w) ->
     exists row : ip_record,
       ip_records w' = ip_records w ++ [row] /\
       ip_address row = k /\ id row = ip_records_id_seq w + 1).
Proof.
  intros (p & x & Hp & Hx & _ & ->)%save_ip_to_database_true.
  split; [reflexivity|].
  apply insert_parameters_ip in Hp. apply proposed_address in Hx as [Hkey Hid].
  exists (p_ip p), (ip_address x). split; [done|]. split; [done|].
  cbn [ip_records committed]. unfold insert_on_conflict. split.
  - intros Hin. rewrite bool_decide_eq_true_2 by (by apply conflict_iff).
    split; [|apply keys_update].
    rewrite <- list_fmap_compose. apply list_fmap_ext. intros i r _. simpl.
    by case_bool_decide.
  - intros Hin. rewrite bool_decide_eq_false_2 by (by rewrite conflict_iff).
    by exists x.
Qed.


End Table.

(** ** What a resolution does and returns *)

Section Reads.
Context `{Platform}.

Lemma logged_nil (w : world) : logged w [] = w.
Proof. unfold logged. rewrite app_nil_r. by destruct w. Qed.

(** What [get_user_ip] does, in one statement. *)
Lemma get_user_ip_cases (e : environ) (w : world) :
  exists (ip : value) (calls : list event),
    get_user_ip e w = (Ret ip, logged w calls) /\
    (calls = [] /\ ip = candidate e /\ candidate e <> VStr loopback \/
     calls = [HttpGet ipify] /\ candidate e = VStr loopback /\
     ip = match requests_get e ipify with
          | Some a => VStr (text a)
          | None => VStr loopback
          end).
Proof.
  rewrite get_user_ip_run.
  destruct (eq_str (candidate e) loopback) eqn:Heq.
  - apply eq_str_true in Heq. rewrite Heq.
    eexists _, _. split; [reflexivity|]. right. by repeat split.
  - exists (candidate e), []. rewrite logged_nil. split; [done|]. left.
    repeat split. intros Hc. apply eq_str_true in Hc. congruence.
Qed.

(** X10.  [get_user_ip] does not raise.  It makes no call, or the one
    request to the address service.  It returns [None] only when the
    request has no peer address and no forwarding header that is not
    empty. *)
Theorem get_user_ip_total (e : environ) (w : world) :
  exists (ip : value) (calls : list event),
    get_user_ip e w = (Ret ip, logged w calls) /\
    (calls = [] \/ calls = [HttpGet ipify]) /\
    (ip = VNone ->
     remote_addr e = None /\
     (X_Forwarded_For e = None \/ X_Forwarded_For e = Some [])).
Proof.
  destruct (get_user_ip_cases e w) as (ip & calls & Hrun & Hcases).
  exists ip, calls. split; [done|].
  destruct Hcases as [(-> & -> & _) | (-> & _ & ->)].
  - split; [by left|]. unfold candidate.
    destruct (X_Forwarded_For e) as [[|c h]|]; [| done |];
      destruct (remote_addr e); try done; auto.
  - split; [by right|]. by destruct (requests_get e ipify).
Qed.

(** The two ways [get_ip_info] goes. *)
Lemma get_ip_info_cases (custom_ip : option str) (e : environ) (w : world) :
  (exists s : str,
     custom_ip = Some s /\ s <> [] /\ validate_ip s = false /\
     get_ip_info custom_ip e w = (Ret (invalid_input s), w)) \/
  (exists (ip : value) (w1 : world) (calls : list event),
     subject_of custom_ip e w ip w1 /\ w1 = logged w calls /\
     (calls = [] \/ calls = [HttpGet ipify]) /\
     get_ip_info custom_ip e w = get_ip_info_from ip e w1).
Proof.
  assert (Hamb : custom_ip = None \/ custom_ip = Some [] ->
            exists ip w1 calls,
              subject_of custom_ip e w ip w1 /\ w1 = logged w calls /\
              (calls = [] \/ calls = [HttpGet ipify]) /\
              get_ip_info custom_ip e w = get_ip_info_from ip e w1).
  { intros Hnone.
    destruct (get_user_ip_cases e w) as (ip & calls & Hrun & Hcases).
    exists ip, (logged w calls), calls.
    assert (Hs : subject_of custom_ip e w ip (logged w calls)) by (by right).
    split; [done|]. split; [done|]. split.
    - destruct Hcases as [(-> & _) | (-> & _)]; auto.
    - by apply get_ip_info_subject. }
  destruct custom_ip as [[|c s]|]; [right; apply Hamb; auto| |right; apply Hamb; auto].
  destruct (validate_ip (c :: s)) eqn:Hok.
  - right. exists (VStr (c :: s)), w, [].
    assert (Hs : subject_of (Some (c :: s)) e w (VStr (c :: s)) w)
      by (left; by exists (c :: s)).
    split; [done|]. split; [by rewrite logged_nil|]. split; [by left|].
    by apply get_ip_info_subject.
  - left. exists (c :: s). repeat split; try done.
    rewrite get_ip_info_custom by done. by rewrite Hok.
Qed.

(** Whatever [get_ip_info] does, it only reads. *)
Lemma get_ip_info_world (custom_ip : option str) (e : environ) (w : world) :
  exists (r : res dict) (w' : world) (calls : list event),
    get_ip_info custom_ip e w = (r, w') /\
    ip_records w' = ip_records w /\
    ip_records_id_seq w' = ip_records_id_seq w /\
    trace w' = trace w ++ calls /\
    Forall is_read calls /\ (length calls <= 3)%nat.
Proof.
  destruct (get_ip_info_cases custom_ip e w)
    as [(s & _ & _ & _ & ->) | (ip & w1 & calls & _ & -> & Hcalls & ->)].
  - eexists _, w, []. rewrite app_nil_r. repeat split; try done. simpl; lia.
  - rewrite get_ip_info_from_run, after_logged.
    eexists _, _, _. split; [reflexivity|]. repeat split.
    + destruct Hcalls as [-> | ->]; repeat constructor.
    + destruct Hcalls as [-> | ->]; simpl; lia.
Qed.

(** X11.  Whatever [get_ip_info] returns or raises, it leaves the rows
    and the sequence of ids as they were, and it makes at most three
    calls, each a request or a query. *)
Theorem get_ip_info_reads_only (custom_ip : option str) (e : environ) (w : world) :
  ip_records (get_ip_info custom_ip e w).2 = ip_records w /\
  ip_records_id_seq (get_ip_info custom_ip e w).2 = ip_records_id_seq w /\
  exists calls : list event,
    trace (get_ip_info custom_ip e w).2 = trace w ++ calls /\
    Forall is_read calls /\ (length calls <= 3)%nat.
Proof.
  destruct (get_ip_info_world custom_ip e w)
    as (r & w' & calls & -> & Hrows & Hseq & Htrace & Hread & Hlen).
  split; [done|]. split; [done|]. by exists calls.
Qed.

(** X12.  Without a custom address (none, or the empty one)
    [get_ip_info] does not return the record of an invalid input: the
    address of the client is not put to the validator, and the two calls
    of the lookup are made with it as [get_user_ip] returned it. *)
Theorem get_ip_info_client_address_unchecked
    (custom_ip : option str) (e : environ) (w w' : world) (r : dict) :
  custom_ip = None \/ custom_ip = Some [] ->
  get_ip_info custom_ip e w = (Ret r, w') ->
  r !! lit "error" = None /\
  exists (ip : value) (w1 : world),
    get_user_ip e w = (Ret ip, w1) /\
    trace w' = trace w1 ++ [HttpGet (geo_url (IPAPI_TOKEN e) ip); SqlSelect ip].
Proof.
  intros Hnone Hrun. rewrite get_ip_info_ambient in Hrun by done.
  destruct (get_user_ip e w) as [[ip|x] w1]; [|done].
  apply get_ip_info_from_record in Hrun as (key & d & flag & _ & _ & _ & -> & ->).
  split; [reflexivity|]. by exists ip, w1.
Qed.

(** X13.  When the body of the provider's response is JSON but not an
    object, reading the country code from it raises [AttributeError]; it
    is [get_ip_info] that raises it, after the two calls of its lookup. *)
Theorem get_ip_info_body_not_object
    (custom_ip : option str) (e : environ) (w w1 : world) (ip : value)
    (key : option datum) (a : response) (v : value) :
  subject_of custom_ip e w ip w1 ->
  sql_param INET ip = Ret key ->
  requests_get e (geo_url (IPAPI_TOKEN e) ip) = Some a ->
  json a = Some v ->
  (forall d : dict, v <> VDict d) ->
  get_ip_info custom_ip e w = (Raise AttributeError, after w1 (lookup_calls e ip)).
Proof.
  intros Hsubject Hkey Ha Hv Hnot.
  rewrite (get_ip_info_subject _ _ _ _ _ Hsubject), get_ip_info_from_run, Hkey.
  unfold geo_data_for. rewrite Ha, Hv.
  change (default ?x (Some ?y)) with y.
  destruct v; try reflexivity. by destruct (Hnot d).
Qed.

(** X14.  When the column type of the address refuses the subject of
    the call, the query raises the error of the database and
    [get_ip_info] raises it, after the request to the provider. *)
Theorem get_ip_info_database_refuses
    (custom_ip : option str) (e : environ) (w w1 : world) (ip : value) :
  subject_of custom_ip e w ip w1 ->
  ip <> VNone -> pg_in INET ip = None ->
  get_ip_info custom_ip e w = (Raise DatabaseError, after w1 (lookup_calls e ip)).
Proof.
  intros Hsubject Hip Hno.
  rewrite (get_ip_info_subject _ _ _ _ _ Hsubject), get_ip_info_from_run.
  assert (Hp : sql_param INET ip = Raise DatabaseError).
  { destruct ip; try done; cbn; by rewrite Hno. }
  by rewrite Hp.
Qed.

(** X15.  When [get_country_flag] raises for the country code of the
    provider's answer, [get_ip_info] raises the same, after the two calls
    of its lookup. *)
Theorem get_ip_info_flag_raises
    (custom_ip : option str) (e : environ) (w w1 : world) (ip : value)
    (key : option datum) (a : response) (d : dict) (x : exn) :
  subject_of custom_ip e w ip w1 ->
  sql_param INET ip = Ret key ->
  requests_get e (geo_url (IPAPI_TOKEN e) ip) = Some a ->
  json a = Some (VDict d) ->
  get_country_flag (default (VStr (lit "")) (d !! lit "country_code")) = Raise x ->
  get_ip_info custom_ip e w = (Raise x, after w1 (lookup_calls e ip)).
Proof.
  intros Hsubject Hkey Ha Hd Hflag.
  rewrite (get_ip_info_subject _ _ _ _ _ Hsubject), get_ip_info_from_run, Hkey.
  unfold geo_data_for. rewrite Ha, Hd.
  change (default ?x (Some ?y)) with y. cbv beta iota. by rewrite Hflag.
Qed.

(** X16.  In every record that [get_ip_info] returns the field
    [country_flag] is the flag of the record's own [country_code]. *)
Theorem get_ip_info_flag_of_code
    (custom_ip : option str) (e : environ) (w w' : world) (r : dict) :
  get_ip_info custom_ip e w = (Ret r, w') ->
  r !! lit "error" = None ->
  exists (loc : dict) (code : value) (flag : str),
    r !! lit "location" = Some (VDict loc) /\
    loc !! lit "country_code" = Some code /\
    loc !! lit "country_flag" = Some (VStr flag) /\
    get_country_flag code = Ret flag.
Proof.
  intros Hrun Hrec.
  apply get_ip_info_record in Hrun as (ip & w1 & _ & Hrun); [|done].
  apply get_ip_info_from_record in Hrun as (key & d & flag & _ & _ & Hflag & -> & _).
  destruct (ip_info_keys (0 <? select_count (ip_records w1) key) ip d flag)
    as (_ & _ & _ & _ & _ & loc & Hloc & _ & Hcode & Hf & _).
  by exists loc, (default (VStr (lit "")) (d !! lit "country_code")), flag.
Qed.

Lemma ip_info_dom (found : bool) (ip : value) (d : dict) (flag : str) :
  dom (ip_info found ip d flag) = record_keys /\
  exists loc : dict,
    ip_info found ip d flag !! lit "location" = Some (VDict loc) /\
    dom loc = location_keys.
Proof.
  split.
  - unfold ip_info, record_keys. rewrite dom_list_to_map_L. reflexivity.
  - eexists. split; [reflexivity|].
    unfold location_keys. rewrite dom_list_to_map_L. reflexivity.
Qed.

(** X17.  Every record that [get_ip_info] returns has the keys
    [status], [ip], [location], [vpn_detected] and [vpn_type] and no
    other; its status is [new] or [duplicate], [vpn_detected] is [False],
    [vpn_type] is [None], and its [location] has the eight keys of
    [location_keys] and no other. *)
Theorem get_ip_info_record_shape
    (custom_ip : option str) (e : environ) (w w' : world) (r : dict) :
  get_ip_info custom_ip e w = (Ret r, w') ->
  r !! lit "error" = None ->
  dom r = record_keys /\
  (r !! lit "status" = Some (VStr (lit "new")) \/
   r !! lit "status" = Some (VStr (lit "duplicate"))) /\
  r !! lit "vpn_detected" = Some (VBool false) /\
  r !! lit "vpn_type" = Some VNone /\
  exists loc : dict,
    r !! lit "location" = Some (VDict loc) /\ dom loc = location_keys.
Proof.
  intros Hrun Hrec.
  apply get_ip_info_record in Hrun as (ip & w1 & _ & Hrun); [|done].
  apply get_ip_info_from_record in Hrun as (key & d & flag & _ & _ & _ & -> & _).
  destruct (ip_info_dom (0 <? select_count (ip_records w1) key) ip d flag) as [Hdom Hloc].
  split; [done|]. split; [|by repeat split].
  destruct (0 <? select_count (ip_records w1) key); [by right|by left].
Qed.

(** X18.  When the provider's answer names an address, the field [ip]
    of the record is that address, while the status tells whether the
    subject of the call has a row. *)
Theorem get_ip_info_ip_from_provider
    (custom_ip : option str) (e : environ) (w w1 w' : world) (ip x : value)
    (a : response) (d r : dict) :
  subject_of custom_ip e w ip w1 ->
  requests_get e (geo_url (IPAPI_TOKEN e) ip) = Some a ->
  json a = Some (VDict d) ->
  d !! lit "ip" = Some x ->
  get_ip_info custom_ip e w = (Ret r, w') ->
  r !! lit "ip" = Some x /\
  exists key : option datum,
    sql_param INET ip = Ret key /\
    (r !! lit "status" = Some (VStr (lit "duplicate")) <-> row_exists (ip_records w1) key).
Proof.
  intros Hsubject Ha Hd Hx Hrun.
  rewrite (get_ip_info_subject _ _ _ _ _ Hsubject) in Hrun.
  apply get_ip_info_from_record in Hrun as (key & d' & flag & Hkey & Hgeo & _ & -> & _).
  unfold geo_data_for in Hgeo. rewrite Ha, Hd in Hgeo. injection Hgeo as <-.
  destruct (ip_info_keys (0 <? select_count (ip_records w1) key) ip d flag)
    as (_ & Hstatus & Hip & _).
  rewrite Hip, Hx. split; [done|]. exists key. split; [done|].
  rewrite Hstatus, <- select_count_positive.
  destruct (0 <? select_count (ip_records w1) key); split; done.
Qed.

End Reads.

(** ** The routes *)

Section Routes.
Context `{Platform}.

Lemma strip_all_spaces (s : str) : forallb is_space s = true -> strip s = [].
Proof. intros Hs. unfold strip, rstrip. rewrite (lstrip_all_spaces s) by done. reflexivity. Qed.

Lemma requested_ip_run (e : environ) (w : world) :
  requested_ip e w =
  (match request_get_json e with
   | None => Raise ValueError
   | Some (VDict d) =>
       match default (VStr (lit "")) (d !! lit "ip_address") with
       | VStr raw => Ret (strip raw)
       | _ => Raise AttributeError
       end
   | Some _ => Raise AttributeError
   end, w).
Proof.
  unfold requested_ip. run.
  destruct (request_get_json e) as [[| | | | | |d]|]; try reflexivity.
  cbn [get]. by destruct (default _ _).
Qed.

Lemma requested_ip_asks (e : environ) (w : world) (s : str) :
  asks_for e s -> requested_ip e w = (Ret s, w).
Proof.
  intros (d & raw & Hd & Hraw & <-). by rewrite requested_ip_run, Hd, Hraw.
Qed.

(** What [get_ip_info] returns. *)
Lemma get_ip_info_result (custom_ip : option str) (e : environ) (w : world) :
  exists (r : res dict) (w' : world),
    get_ip_info custom_ip e w = (r, w') /\
    ip_records w' = ip_records w /\
    ip_records_id_seq w' = ip_records_id_seq w /\
    (exists calls, trace w' = trace w ++ calls) /\
    ((exists x, r = Raise x) \/
     (exists s, r = Ret (invalid_input s) /\ custom_ip = Some s /\ w' = w) \/
     (exists found ip d flag, r = Ret (ip_info found ip d flag))).
Proof.
  destruct (get_ip_info_cases custom_ip e w)
    as [(s & Hc & _ & _ & ->) | (ip & w1 & calls & _ & -> & _ & ->)].
  - eexists _, w. split; [reflexivity|]. repeat split.
    + exists []. by rewrite app_nil_r.
    + right. left. by exists s.
  - rewrite get_ip_info_from_run, after_logged.
    eexists _, _. split; [reflexivity|]. split; [done|]. split; [done|].
    split; [by eexists|].
    destruct (sql_param INET ip) as [key|]; [|left; by eexists].
    destruct (geo_data_for e ip); try (left; by eexists).
    destruct (get_country_flag _); [|left; by eexists].
    right. right. by eexists _, _, _, _.
Qed.

(** *** [/save-ip] *)

Lemma save_ip_run (e : environ) (w : world) :
  save_ip e w =
  match get_ip_info (form_address e) e w with
  | (Ret data, w1) => save_ip_from data e w1
  | (Raise x, w1) => (Raise x, w1)
  end.
Proof.
  unfold save_ip, form_address. run.
  destruct (truthy (from_option VStr VNone (form_ip_to_save e))); reflexivity.
Qed.

Lemma save_ip_from_invalid_input (s : str) (e : environ) (w : world) :
  save_ip_from (invalid_input s) e w = (Raise (KeyError (lit "status")), w).
Proof. reflexivity. Qed.

Lemma save_ip_from_ip_info
    (found : bool) (ip : value) (d : dict) (flag : str) (e : environ) (w : world) :
  save_ip_from (ip_info found ip d flag) e w =
  (Ret (Redirect (lit "home")),
   if found
   then logged w [Flash (lit "IP already exists in database.")]
   else logged (after w [SqlRollback]) [Flash (lit "Error saving IP to database.")]).
Proof.
  destruct found.
  - apply (save_ip_from_other _ (VStr (lit "duplicate"))); [reflexivity|discriminate].
  - destruct (save_ip_from_new (ip_info false ip d flag) e w _ false eq_refl
                (save_ip_info_fails false ip d flag e w)) as (m & -> & Hm).
    by rewrite (Hm eq_refl).
Qed.

(** X19.  [/save-ip] with an address that is not empty and that the
    validator rejects raises [KeyError] for [status]; no call is made and
    no message is flashed. *)
Theorem save_ip_invalid_address (e : environ) (w : world) (s : str) :
  form_ip_to_save e = Some s -> s <> [] -> validate_ip s = false ->
  save_ip e w = (Raise (KeyError (lit "status")), w).
Proof.
  intros Hform Hs Hbad. rewrite save_ip_run. unfold form_address.
  rewrite Hform. cbn [from_option truthy].
  rewrite bool_decide_eq_false_2 by done. cbn [negb].
  rewrite get_ip_info_custom, Hbad by done. reflexivity.
Qed.

(** X20.  [/save-ip] leaves the rows and the sequence of ids as they
    were.  When it returns, it redirects to [home], and the last thing it
    did was to flash that saving failed or that the address exists. *)
Theorem save_ip_never_saves (e : environ) (w : world) :
  ip_records (save_ip e w).2 = ip_records w /\
  ip_records_id_seq (save_ip e w).2 = ip_records_id_seq w /\
  forall resp : http_response,
    (save_ip e w).1 = Ret resp ->
    resp = Redirect (lit "home") /\
    exists (calls : list event) (message : str),
      trace (save_ip e w).2 = trace w ++ calls ++ [Flash message] /\
      (message = lit "Error saving IP to database." \/
       message = lit "IP already exists in database.").
Proof.
  rewrite save_ip_run.
  destruct (get_ip_info_result (form_address e) e w)
    as (r & w1 & -> & Hrows & Hseq & [calls Htrace] & Hr).
  destruct Hr as [[x ->] | [(s & -> & _ & ->) | (found & ip & d & flag & ->)]].
  - by repeat split.
  - rewrite save_ip_from_invalid_input. by repeat split.
  - rewrite save_ip_from_ip_info. cbn [fst snd].
    destruct found; cbn [logged after ip_records ip_records_id_seq trace].
    + split; [done|]. split; [done|]. intros resp [= <-]. split; [done|].
      exists calls, (lit "IP already exists in database.").
      rewrite Htrace, <- app_assoc. auto.
    + split; [done|]. split; [done|]. intros resp [= <-]. split; [done|].
      exists (calls ++ [SqlRollback]), (lit "Error saving IP to database.").
      rewrite Htrace, <- !app_assoc. auto.
Qed.

(** *** The API routes *)

Lemma api_analyze_ip_run (e : environ) (w : world) :
  api_analyze_ip e w =
  match (requested_ip e w).1 with
  | Raise _ => (Ret server_error, w)
  | Ret s =>
      if bool_decide (s = []) then (Ret ip_required, w)
      else
        match get_ip_info (Some s) e w with
        | (Raise _, w1) => (Ret server_error, w1)
        | (Ret result, w1) =>
            match result !! lit "error" with
            | Some error => (Ret (Jsonify (list_to_map [(lit "error", error)]) 400), w1)
            | None => (Ret (analysed result), w1)
            end
        end
  end.
Proof.
  unfold api_analyze_ip. run. rewrite requested_ip_run. cbn [fst].
  match goal with |- context [match ?x with Raise _ => _ | Ret _ => _ end] =>
    destruct x as [s|]; [|reflexivity] end.
  cbn [truthy]. case_bool_decide; [reflexivity|]. cbn [negb].
  destruct (get_ip_info (Some s) e w) as [[result|x] w1]; [|reflexivity].
  by destruct (result !! lit "error").
Qed.

Lemma api_save_ip_run (e : environ) (w : world) :
  api_save_ip e w =
  match (requested_ip e w).1 with
  | Raise _ => (Ret server_error, w)
  | Ret s =>
      if bool_decide (s = []) then (Ret ip_required, w)
      else
        match get_ip_info (Some s) e w with
        | (Raise _, w1) => (Ret server_error, w1)
        | (Ret ip_data, w1) =>
            match ip_data !! lit "error" with
            | Some error => (Ret (Jsonify (list_to_map [(lit "error", error)]) 400), w1)
            | None =>
                match api_save_ip_from ip_data e w1 with
                | (Ret resp, w2) => (Ret resp, w2)
                | (Raise _, w2) => (Ret server_error, w2)
                end
            end
        end
  end.
Proof.
  unfold api_save_ip. run. rewrite requested_ip_run. cbn [fst].
  match goal with |- context [match ?x with Raise _ => _ | Ret _ => _ end] =>
    destruct x as [s|]; [|reflexivity] end.
  cbn [truthy]. case_bool_decide; [reflexivity|]. cbn [negb].
  destruct (get_ip_info (Some s) e w) as [[ip_data|x] w1]; [|reflexivity].
  destruct (ip_data !! lit "error"); [reflexivity|].
  by destruct (api_save_ip_from ip_data e w1) as [[resp|x] w2].
Qed.

Lemma api_save_ip_from_ip_info
    (found : bool) (ip : value) (d : dict) (flag : str) (e : environ) (w : world) :
  api_save_ip_from (ip_info found ip d flag) e w =
  if found then (Ret (already_exists (ip_info found ip d flag)), w)
  else (Ret save_failed, after w [SqlRollback]).
Proof.
  unfold api_save_ip_from. run. unfold subscript.
  destruct (ip_info_keys found ip d flag) as (_ & -> & _).
  destruct found; cbn [eq_str]; unfold str_eqb.
  - rewrite bool_decide_eq_false_2 by discriminate. reflexivity.
  - rewrite bool_decide_eq_true_2 by done.
    rewrite save_ip_info_fails. reflexivity.
Qed.

(** X21.  [/api/analyze-ip] does not raise and leaves the rows and the
    sequence of ids as they were.  It answers with status 200, [success]
    true and a record without [error]; or with status 400 and an [error],
    without [success]; or with status 500 and the error of the server. *)
Theorem api_analyze_ip_total (e : environ) (w : world) :
  exists (body : dict) (status : Z) (w' : world),
    api_analyze_ip e w = (Ret (Jsonify body status), w') /\
    ip_records w' = ip_records w /\
    ip_records_id_seq w' = ip_records_id_seq w /\
    (status = 200 /\ body !! lit "success" = Some (VBool true) /\
     (exists r : dict, body !! lit "data" = Some (VDict r) /\ r !! lit "error" = None) \/
     status = 400 /\ is_Some (body !! lit "error") /\ body !! lit "success" = None \/
     status = 500 /\ body !! lit "error" = Some (VStr (lit "Server error occurred"))).
Proof.
  rewrite api_analyze_ip_run, requested_ip_run. cbn [fst].
  match goal with |- context [match ?x with Raise _ => _ | Ret _ => _ end] =>
    destruct x as [s|] end.
  2: { eexists _, _, _. split; [reflexivity|]. repeat split. right. right. by split. }
  case_bool_decide.
  { eexists _, _, _. split; [reflexivity|]. repeat split. right. left.
    split; [done|]. split; [by eexists|done]. }
  destruct (get_ip_info_result (Some s) e w)
    as (r & w1 & -> & Hrows & Hseq & _ & Hr).
  destruct Hr as [[x ->] | [(s' & -> & _ & ->) | (found & ip & d & flag & ->)]].
  - eexists _, _, _. split; [reflexivity|]. repeat split; try done.
    right. right. by split.
  - eexists _, _, _. split; [reflexivity|]. repeat split.
    right. left. split; [done|]. split; [by eexists|done].
  - eexists _, _, _. split; [reflexivity|]. repeat split; try done.
    left. split; [done|]. split; [done|]. by eexists.
Qed.

(** X22.  [/api/save-ip] does not raise, leaves the rows and the
    sequence of ids as they were, and does not answer with [success] true;
    its status is 200, 400 or 500. *)
Theorem api_save_ip_never_saves (e : environ) (w : world) :
  exists (body : dict) (status : Z) (w' : world),
    api_save_ip e w = (Ret (Jsonify body status), w') /\
    response_success (Jsonify body status) = false /\
    ip_records w' = ip_records w /\
    ip_records_id_seq w' = ip_records_id_seq w /\
    (status = 200 \/ status = 400 \/ status = 500).
Proof.
  rewrite api_save_ip_run, requested_ip_run. cbn [fst].
  match goal with |- context [match ?x with Raise _ => _ | Ret _ => _ end] =>
    destruct x as [s|] end.
  2: { eexists _, _, _. split; [reflexivity|]. repeat split. auto. }
  case_bool_decide.
  { eexists _, _, _. split; [reflexivity|]. repeat split. auto. }
  destruct (get_ip_info_result (Some s) e w)
    as (r & w1 & -> & Hrows & Hseq & _ & Hr).
  destruct Hr as [[x ->] | [(s' & -> & _ & ->) | (found & ip & d & flag & ->)]].
  - eexists _, _, _. split; [reflexivity|]. repeat split; auto.
  - eexists _, _, _. split; [reflexivity|]. repeat split; auto.
  - change (ip_info found ip d flag !! lit "error") with (@None value).
    rewrite api_save_ip_from_ip_info.
    destruct found; eexists _, _, _; (split; [reflexivity|]); repeat split; auto.
Qed.

(** X23.  When the JSON object of the request has no [ip_address], or
    one that consists of white space, both API routes answer with status
    400 that the address is required, and make no call. *)
Theorem api_routes_blank_address (e : environ) (w : world) (d : dict) :
  request_get_json e = Some (VDict d) ->
  (d !! lit "ip_address" = None \/
   exists raw : str,
     d !! lit "ip_address" = Some (VStr raw) /\ forallb is_space raw = true) ->
  api_analyze_ip e w = (Ret ip_required, w) /\
  api_save_ip e w = (Ret ip_required, w).
Proof.
  intros Hd Hblank.
  assert (Hreq : requested_ip e w = (Ret [], w)).
  { rewrite requested_ip_run, Hd.
    destruct Hblank as [-> | (raw & -> & Hraw)]; [reflexivity|].
    cbn [default from_option Datatypes.id]. by rewrite strip_all_spaces. }
  by rewrite api_analyze_ip_run, api_save_ip_run, Hreq.
Qed.

(** X24.  When the request has no JSON body, or one that is not an
    object, or one whose [ip_address] is not a string, both API routes
    answer with status 500 and the error of the server, and make no
    call. *)
Theorem api_routes_malformed_request (e : environ) (w : world) :
  (request_get_json e = None \/
   (exists v : value, request_get_json e = Some v /\ forall d : dict, v <> VDict d) \/
   (exists (d : dict) (v : value),
      request_get_json e = Some (VDict d) /\
      d !! lit "ip_address" = Some v /\ forall s : str, v <> VStr s)) ->
  api_analyze_ip e w = (Ret server_error, w) /\
  api_save_ip e w = (Ret server_error, w).
Proof.
  intros Hbad.
  assert (Hreq : exists x, requested_ip e w = (Raise x, w)).
  { rewrite requested_ip_run.
    destruct Hbad as [-> | [(v & -> & Hv) | (d & v & -> & -> & Hv)]].
    - by eexists.
    - destruct v; try by eexists. by destruct (Hv d).
    - cbn [default from_option Datatypes.id].
      destruct v; try by eexists. by destruct (Hv s). }
  destruct Hreq as [x Hreq].
  by rewrite api_analyze_ip_run, api_save_ip_run, Hreq.
Qed.

(** X25.  When the address asked for, with the white space around it
    removed, is not empty and the validator rejects it, both API routes
    answer with status 400 and the validator's message, and make no
    call. *)
Theorem api_routes_invalid_address (e : environ) (w : world) (s : str) :
  asks_for e s -> s <> [] -> validate_ip s = false ->
  api_analyze_ip e w = (Ret invalid_format, w) /\
  api_save_ip e w = (Ret invalid_format, w).
Proof.
  intros Hreq%(requested_ip_asks _ w) Hs Hbad.
  rewrite api_analyze_ip_run, api_save_ip_run, Hreq. cbn [fst].
  rewrite bool_decide_eq_false_2 by done.
  rewrite get_ip_info_custom, Hbad by done. by split.
Qed.

(** X26.  For an address that [get_ip_info] resolves,
    [/api/save-ip] answers with status 500 that saving failed, after a
    rollback, when the status of the record is [new]; and with [success]
    false and the record, without a call of the database, when it is
    [duplicate]. *)
Theorem api_save_ip_resolved_address
    (e : environ) (w w1 : world) (s : str) (ip_data : dict) :
  asks_for e s -> s <> [] ->
  get_ip_info (Some s) e w = (Ret ip_data, w1) ->
  ip_data !! lit "error" = None ->
  (ip_data !! lit "status" = Some (VStr (lit "new")) ->
   api_save_ip e w = (Ret save_failed, after w1 [SqlRollback])) /\
  (ip_data !! lit "status" = Some (VStr (lit "duplicate")) ->
   api_save_ip e w = (Ret (already_exists ip_data), w1)).
Proof.
  intros Hreq%(requested_ip_asks _ w) Hs Hrun Hrec.
  rewrite api_save_ip_run, Hreq. cbn [fst].
  rewrite bool_decide_eq_false_2 by done. rewrite Hrun, Hrec.
  apply get_ip_info_record in Hrun as (ip & w0 & _ & Hrun); [|done].
  apply get_ip_info_from_record in Hrun as (key & d & flag & _ & _ & _ & -> & _).
  rewrite api_save_ip_from_ip_info.
  destruct (ip_info_keys (0 <? select_count (ip_records w0) key) ip d flag)
    as (_ & -> & _).
  destruct (0 <? select_count (ip_records w0) key); split; intros Hst;
    done || discriminate Hst.
Qed.

End Routes.

(** ** The page *)

Section Page.
Context `{Platform}.

Lemma home_run (method : str) (form_ip_address : option str) (first e : environ) (w : world) :
  home method form_ip_address first e w =
  match get_user_ip first w with
  | (Raise x, w1) => (Raise x, w1)
  | (Ret user_ip, w1) =>
      let custom_ip := strip (default (lit "") form_ip_address) in
      if str_eqb method (lit "POST") &&
         (negb (bool_decide (custom_ip = [])) && negb (eq_str user_ip custom_ip))
      then
        match get_ip_info (Some custom_ip) e w1 with
        | (Raise x, w2) => (Raise x, w2)
        | (Ret data, w2) =>
            match data !! lit "error" with
            | Some error =>
                match get_ip_info None e w2 with
                | (Raise x, w3) => (Raise x, w3)
                | (Ret data, w3) =>
                    (render_arguments
                       (if negb (truthy error) then VStr custom_ip else user_ip)
                       error data, w3)
                end
            | None => (render_arguments (VStr custom_ip) VNone data, w2)
            end
        end
      else
        match get_ip_info None e w1 with
        | (Raise x, w2) => (Raise x, w2)
        | (Ret data, w2) => (render_arguments user_ip VNone data, w2)
        end
  end.
Proof.
  unfold home, in_environ. run.
  destruct (get_user_ip first w) as [[user_ip|x] w1]; [|reflexivity].
  cbv zeta. cbn [truthy].
  destruct (str_eqb method (lit "POST")); cbn [andb].
  - case_bool_decide as Hblank; cbn [negb andb].
    + rewrite Hblank.
      destruct (get_ip_info None e w1) as [[data|x] w2]; reflexivity.
    + destruct (eq_str user_ip _) eqn:Heq; cbn [negb].
      * apply eq_str_true in Heq.
        destruct (get_ip_info None e w1) as [[data|x] w2]; [|reflexivity].
        rewrite Heq. by destruct (_ && _).
      * destruct (get_ip_info (Some _) e w1) as [[data|x] w2]; [|reflexivity].
        destruct (data !! lit "error") as [error|].
        -- destruct (get_ip_info None e w2) as [[data'|x] w3]; [|reflexivity].
           cbn [truthy]. by rewrite bool_decide_eq_false_2 by done.
        -- cbn [truthy]. by rewrite bool_decide_eq_false_2 by done.
  - destruct (get_ip_info None e w1) as [[data|x] w2]; reflexivity.
Qed.

Lemma ip_info_render (found : bool) (ip : value) (d : dict) (flag : str) (a b : value) :
  render_arguments a b (ip_info found ip d flag)
  = Ret {| display_ip := a; error_message := b; page_data := ip_info found ip d flag |}.
Proof. reflexivity. Qed.

Lemma get_ip_info_render
    (custom_ip : option str) (e : environ) (w w' : world) (data : dict) (a b : value) :
  get_ip_info custom_ip e w = (Ret data, w') -> data !! lit "error" = None ->
  render_arguments a b data = Ret {| display_ip := a; error_message := b; page_data := data |}.
Proof.
  intros Hrun Hrec.
  apply get_ip_info_record in Hrun as (ip & w0 & _ & Hrun); [|done].
  apply get_ip_info_from_record in Hrun as (key & d & flag & _ & _ & _ & -> & _).
  apply ip_info_render.
Qed.

Lemma get_ip_info_ambient_record (e : environ) (w w' : world) (data : dict) :
  get_ip_info None e w = (Ret data, w') -> data !! lit "error" = None.
Proof.
  intros Hrun. rewrite get_ip_info_ambient in Hrun by auto.
  destruct (get_user_ip e w) as [[ip|x] w0]; [|done].
  by apply get_ip_info_from_record in Hrun as (key & d & flag & _ & _ & _ & -> & _).
Qed.

(** X27.  A POST to [/] with an address that the validator rejects and
    that is not the address of the client renders the page with the
    validator's message, the address of the client, and the record of the
    client's address, when that address resolves. *)
Theorem home_invalid_address
    (raw : str) (first e : environ) (w w1 w2 : world) (user_ip : value) (data : dict) :
  strip raw <> [] ->
  validate_ip (strip raw) = false ->
  get_user_ip first w = (Ret user_ip, w1) ->
  user_ip <> VStr (strip raw) ->
  get_ip_info None e w1 = (Ret data, w2) ->
  home (lit "POST") (Some raw) first e w
  = (Ret {| display_ip := user_ip;
            error_message := VStr (lit "Invalid IP address format");
            page_data := data |}, w2).
Proof.
  intros Hs Hbad Huser Hne Hdata.
  assert (Heq : eq_str user_ip (strip raw) = false).
  { destruct (eq_str user_ip (strip raw)) eqn:Heq; [|done].
    by apply eq_str_true in Heq. }
  rewrite home_run, Huser. cbn [default from_option Datatypes.id]. cbv zeta.
  change (str_eqb (lit "POST") (lit "POST")) with true.
  rewrite bool_decide_eq_false_2, Heq by done. cbn [negb andb].
  rewrite get_ip_info_custom, Hbad by done.
  change (invalid_input (strip raw) !! lit "error")
    with (Some (VStr (lit "Invalid IP address format"))).
  cbv beta iota. rewrite Hdata.
  change (truthy (VStr (lit "Invalid IP address format"))) with true.
  cbn [negb]. f_equal.
  eapply get_ip_info_render; [done|]. by eapply get_ip_info_ambient_record.
Qed.

(** X28.  A POST to [/] with an address, other than the client's, that
    [get_ip_info] resolves renders the page with that address, the
    record of it, and no message. *)
Theorem home_custom_address
    (raw : str) (first e : environ) (w w1 w2 : world) (user_ip : value) (data : dict) :
  strip raw <> [] ->
  get_user_ip first w = (Ret user_ip, w1) ->
  user_ip <> VStr (strip raw) ->
  get_ip_info (Some (strip raw)) e w1 = (Ret data, w2) ->
  data !! lit "error" = None ->
  home (lit "POST") (Some raw) first e w
  = (Ret {| display_ip := VStr (strip raw); error_message := VNone; page_data := data |}, w2).
Proof.
  intros Hs Huser Hne Hdata Hrec.
  assert (Heq : eq_str user_ip (strip raw) = false).
  { destruct (eq_str user_ip (strip raw)) eqn:Heq; [|done].
    by apply eq_str_true in Heq. }
  rewrite home_run, Huser. cbn [default from_option Datatypes.id]. cbv zeta.
  change (str_eqb (lit "POST") (lit "POST")) with true.
  rewrite bool_decide_eq_false_2, Heq by done. cbn [negb andb].
  rewrite Hdata, Hrec. f_equal. by eapply get_ip_info_render.
Qed.

(** X29.  A POST to [/] whose address is blank, or is the address of
    the client, does what a GET does. *)
Theorem home_own_address
    (raw : str) (first e : environ) (w : world) :
  (strip raw = [] \/ (get_user_ip first w).1 = Ret (VStr (strip raw))) ->
  home (lit "POST") (Some raw) first e w = home (lit "GET") None first e w.
Proof.
  intros Hown. rewrite !home_run.
  destruct (get_user_ip first w) as [[user_ip|x] w1]; [|reflexivity].
  cbn [default from_option Datatypes.id]. cbv zeta.
  change (str_eqb (lit "GET") (lit "POST")) with false.
  change (str_eqb (lit "POST") (lit "POST")) with true. cbn [andb].
  destruct Hown as [-> | [= ->]]; [reflexivity|].
  replace (eq_str (VStr (strip raw)) (strip raw)) with true.
  - cbn [negb]. by rewrite andb_false_r.
  - symmetry. unfold eq_str, str_eqb. by apply bool_decide_eq_true_2.
Qed.

(** X30.  [/] leaves the rows and the sequence of ids as they were,
    for every method and every form. *)
Theorem home_never_writes
    (method : str) (form_ip_address : option str) (first e : environ) (w : world) :
  ip_records (home method form_ip_address first e w).2 = ip_records w /\
  ip_records_id_seq (home method form_ip_address first e w).2 = ip_records_id_seq w.
Proof.
  rewrite home_run.
  destruct (get_user_ip_cases first w) as (user_ip & calls & -> & _).
  cbv zeta.
  match goal with |- context [if ?b then _ else _] => destruct b end.
  - destruct (get_ip_info_result (Some (strip (default (lit "") form_ip_address)))
                e (logged w calls)) as (r & w2 & -> & Hrows & Hseq & _).
    destruct r as [data|x]; [|done].
    destruct (data !! lit "error"); [|done].
    destruct (get_ip_info_result None e w2) as (r & w3 & -> & Hrows' & Hseq' & _).
    destruct r as [data'|x]; cbn [snd]; by rewrite ?Hrows', ?Hseq'.
  - destruct (get_ip_info_result None e (logged w calls))
      as (r & w2 & -> & Hrows & Hseq & _).
    by destruct r.
Qed.

End Page.

(** * The program on concrete requests *)

Section Concrete.
Import Example.

Lemma resolved_run :
  get_ip_info (Some ip8) timed_out empty = (Ret (resolved false), looked_up).
Proof.
  rewrite get_ip_info_custom by discriminate.
  rewrite get_ip_info_from_run. reflexivity.
Qed.

Lemma ip8_subject : subject_of (Some ip8) timed_out empty (VStr ip8) empty.
Proof. left. by exists ip8. Qed.

Lemma no_row (key : option (list Z)) : ~ row_exists [] key.
Proof. intros (row & Hin & _). by apply elem_of_nil in Hin. Qed.


Lemma saved_once_run :
  save_ip_to_database (legacy "United States") (at_time 1000) empty = (Ret true, saved_once).
Proof. unfold saved_once. rewrite save_ip_to_database_run. reflexivity. Qed.

Lemma saved_last_run :
  save_ip_to_database (legacy "United States") (at_time 1000) nearly_full
  = (Ret true, saved_last).
Proof. unfold saved_last. rewrite save_ip_to_database_run. reflexivity. Qed.


(** The route [/api/save-ip], asked to save a new address, answers with
    status 500 and leaves the table empty. *)
Lemma api_save_ip_fails :
  api_save_ip timed_out empty
  = (Ret (Jsonify (list_to_map
                     [(lit "error", VStr (lit "Failed to save IP to database"))]) 500),
     after looked_up [SqlRollback]) /\
  ip_records (after looked_up [SqlRollback]) = [].
Proof.
  split; [|reflexivity].
  apply (api_save_ip_resolved ip8 timed_out empty looked_up _ (resolved false)).
  - reflexivity.
  - discriminate.
  - apply resolved_run.
  - reflexivity.
  - unfold api_save_ip_from. run. unfold subscript.
    change (resolved false !! lit "status") with (Some (VStr (lit "new"))).
    cbn [eq_str]. unfold str_eqb. rewrite bool_decide_eq_true_2 by done.
    unfold resolved. rewrite save_ip_info_fails. reflexivity.
Qed.

Lemma get_country_flag_spec_witness :
  get_country_flag (VStr (lit "US")) = Ret [127482; 127480].
Proof.
  exact (proj1 get_country_flag_spec 85 83 eq_refl eq_refl).
Defined.

Lemma get_ip_info_invalid_input_witness :
  (exists r : dict,
     get_ip_info (Some (lit "not-an-ip")) (request (lit "not-an-ip") None) empty
     = (Ret r, empty) /\
     r !! lit "error" = Some (VStr (lit "Invalid IP address format")) /\
     r !! lit "ip" = Some (VStr (lit "not-an-ip")) /\
     r !! lit "status" = None /\
     r !! lit "location" = None) /\
  (forall (r : dict) (w' : world),
     get_ip_info (Some ip8) timed_out empty = (Ret r, w') ->
     r !! lit "error" = None /\ is_Some (r !! lit "status")).
Proof.
  split.
  - apply (get_ip_info_invalid_input (lit "not-an-ip")); [discriminate|reflexivity].
  - apply (get_ip_info_invalid_input ip8). reflexivity.
Defined.

Lemma pipeline_record_is_never_saved_witness :
  get_ip_info (Some ip8) timed_out empty = (Ret (resolved false), looked_up) /\
  resolved false !! lit "error" = None /\
  save_ip_to_database (resolved false) timed_out looked_up
  = (Ret false, after looked_up [SqlRollback]).
Proof.
  split; [apply resolved_run|]. split; [reflexivity|].
  apply (pipeline_record_is_never_saved (Some ip8) timed_out timed_out
           empty looked_up looked_up (resolved false) resolved_run eq_refl).
Defined.

Lemma get_ip_info_fallback_witness :
  validate_ip ip8 = true /\
  requests_get timed_out (geo_url (IPAPI_TOKEN timed_out) (VStr ip8)) = None /\
  exists r : dict,
    get_ip_info (Some ip8) timed_out empty = (Ret r, looked_up) /\
    fallback_record (VStr ip8) r /\
    r !! lit "status" = Some (VStr (lit "new")).
Proof.
  split; [reflexivity|]. split; [reflexivity|].
  apply (proj1 (get_ip_info_fallback (Some ip8) timed_out empty empty (VStr ip8)
                  (Some [8; 8; 8; 8]) ip8_subject eq_refl)).
  left. reflexivity.
Defined.

(** C5 as the specification states it does not hold: a response with
    status 500 whose body is a JSON object with a country is not replaced
    by the fallback, its country is in the record. *)
Lemma get_ip_info_non_200_counterexample :
  validate_ip ip8 = true /\
  (exists a : response,
     requests_get refused (geo_url (IPAPI_TOKEN refused) (VStr ip8)) = Some a /\
     status_code a = 500) /\
  exists (r loc : dict) (w' : world),
    get_ip_info (Some ip8) refused empty = (Ret r, w') /\
    r !! lit "location" = Some (VDict loc) /\
    loc !! lit "country" = Some (VStr (lit "Atlantis")) /\
    ~ fallback_record (VStr ip8) r.
Proof.
  split; [reflexivity|]. split; [eexists; split; reflexivity|].
  destruct (ip_info_keys false (VStr ip8) atlantis [127757])
    as (_ & _ & _ & _ & _ & loc & Hloc & Hcountry & _).
  exists (ip_info false (VStr ip8) atlantis [127757]), loc,
    (after empty (lookup_calls refused (VStr ip8))).
  split.
  { rewrite get_ip_info_custom by discriminate.
    rewrite get_ip_info_from_run. reflexivity. }
  split; [done|]. split; [by rewrite Hcountry|].
  intros (_ & _ & _ & loc' & Hloc' & Hcountry' & _).
  rewrite Hloc in Hloc'. injection Hloc' as <-.
  rewrite Hcountry in Hcountry'. discriminate Hcountry'.
Qed.


Lemma save_guard_witness :
  (exists resp : http_response,
     api_save_ip_from (resolved true) timed_out empty = (Ret resp, empty) /\
     response_success resp = false) /\
  (exists resp : http_response,
     api_save_ip_from (resolved false) timed_out empty
     = (Ret resp, after empty [SqlRollback]) /\
     response_success resp = false).
Proof.
  split.
  - destruct (save_guard (resolved true) (VStr (lit "duplicate")) timed_out empty eq_refl)
      as [Hdup _].
    apply Hdup. discriminate.
  - destruct (save_guard (resolved false) (VStr (lit "new")) timed_out empty eq_refl)
      as [_ Hnew].
    apply (Hnew eq_refl false). reflexivity.
Defined.

Lemma resolve_save_resolve_stays_new_witness :
  validate_ip ip8 = true /\
  ~ row_exists (ip_records empty) (Some [8; 8; 8; 8]) /\
  resolved false !! lit "status" = Some (VStr (lit "new")) /\
  exists (resp : http_response) (w2 : world),
    save_ip_to_database (resolved false) timed_out looked_up = (Ret false, w2) /\
    api_save_ip_from (resolved false) timed_out looked_up = (Ret resp, w2) /\
    response_success resp = false /\
    ip_records w2 = ip_records empty /\
    forall (r3 : dict) (w3 : world),
      get_ip_info (Some ip8) timed_out w2 = (Ret r3, w3) ->
      r3 !! lit "status" = Some (VStr (lit "new")) /\
      r3 !! lit "status" <> Some (VStr (lit "duplicate")).
Proof.
  split; [reflexivity|]. split; [apply no_row|].
  apply (resolve_save_resolve_stays_new (H := platform) ip8 (Some [8; 8; 8; 8])
           timed_out timed_out timed_out empty looked_up (resolved false)
           eq_refl eq_refl (no_row _) resolved_run).
Defined.

Lemma save_ip_to_database_upsert_witness :
  (let w1 := (save_ip_to_database (legacy "United States") (at_time 1000) empty).2 in
   let w2 := (save_ip_to_database (legacy "Germany") (at_time 2000) w1).2 in
   exists row : ip_record,
     rows_for [8; 8; 8; 8] (ip_records w2) = [row] /\
     country row = Some (lit "Germany") /\
     timestamp row = 2000) /\
  save_ip_to_database anonymous (at_time 3000) empty
  = (Ret false, drawn empty [SqlInsert VNone; SqlRollback]) /\
  ip_records (drawn empty [SqlInsert VNone; SqlRollback]) = [] /\
  ip_records_id_seq (drawn empty [SqlInsert VNone; SqlRollback]) = 1.
Proof.
  split.
  - intros w1 w2.
    destruct (proj1 (proj2 save_ip_to_database_upsert)
                (legacy "United States") (legacy "Germany") (at_time 1000) (at_time 2000)
                empty w1 w2
                (legacy_params "United States") (legacy_params "Germany")
                [8; 8; 8; 8])
      as (row & Hrow & Hcountry & Htime).
    + apply NoDup_nil_2.
    + reflexivity.
    + reflexivity.
    + reflexivity.
    + reflexivity.
    + unfold w1. rewrite save_ip_to_database_run. reflexivity.
    + unfold w2, w1. rewrite !save_ip_to_database_run. reflexivity.
    + exists row. split; [done|]. split; [|done].
      injection Hcountry as <-. reflexivity.
  - split; [|split; reflexivity].
    apply (proj2 (proj2 (proj2 save_ip_to_database_upsert))
             anonymous (at_time 3000) empty anonymous_params).
    + reflexivity.
    + reflexivity.
    + reflexivity.
    + reflexivity.
Defined.

Lemma get_user_ip_spec_witness :
  candidate proxied = VStr (lit "203.0.113.9") /\
  get_user_ip proxied empty = (Ret (VStr (lit "203.0.113.9")), empty) /\
  get_user_ip (local None) empty
  = (Ret (VStr (lit "127.0.0.1")), logged empty [HttpGet ipify]) /\
  get_user_ip located empty
  = (Ret (VStr (lit "198.51.100.4")), logged empty [HttpGet ipify]).
Proof.
  destruct (get_user_ip_spec proxied empty) as (Hfirst & _ & Hother & _).
  assert (Hc : candidate proxied = VStr (lit "203.0.113.9")).
  { apply (Hfirst (lit " ") (lit "203.0.113.9") (lit " ") [lit " 10.0.0.1"]).
    - reflexivity.
    - discriminate.
    - apply (bool_decide_unpack _). vm_compute. exact I.
    - reflexivity.
    - reflexivity.
    - split; intros c [= <-]; reflexivity. }
  split; [done|]. split; [|split].
  - rewrite <- Hc. apply Hother. rewrite Hc. discriminate.
  - destruct (get_user_ip_spec (local None) empty) as (_ & _ & _ & _ & Hkept).
    apply Hkept; reflexivity.
  - destruct (get_user_ip_spec located empty) as (_ & _ & _ & Hanswer & _).
    apply (Hanswer eq_refl
             {| status_code := 200; text := lit "198.51.100.4"; json := None |}).
    reflexivity.
Defined.

(** C10 as the specification states it does not hold: when the address
    service answers with status 503 and the text [oops], the lookup has
    failed, and yet the loopback address is not kept: the text of the
    answer is returned as the address of the client. *)
Lemma get_user_ip_non_200_counterexample :
  candidate unavailable = VStr loopback /\
  (exists a : response,
     requests_get unavailable ipify = Some a /\
     status_code a = 503 /\ validate_ip (text a) = false) /\
  get_user_ip unavailable empty
  = (Ret (VStr (lit "oops")), logged empty [HttpGet ipify]) /\
  VStr (lit "oops") <> VStr loopback.
Proof.
  split; [reflexivity|]. split; [eexists; repeat split; reflexivity|].
  split; [|intros Heq; discriminate Heq].
  rewrite get_user_ip_run. reflexivity.
Qed.

Lemma ip8_subject_in (e : environ) : subject_of (Some ip8) e empty (VStr ip8) empty.
Proof. left. by exists ip8. Qed.

Lemma own_run : get_ip_info None timed_out empty = (Ret own, own_looked_up).
Proof.
  rewrite get_ip_info_ambient by auto. rewrite get_user_ip_run.
  change (eq_str (candidate timed_out) loopback) with false. cbv iota.
  rewrite get_ip_info_from_run. reflexivity.
Qed.

Lemma peer_run : get_user_ip timed_out empty = (Ret (VStr peer), empty).
Proof. rewrite get_user_ip_run. reflexivity. Qed.

Lemma validate_ip_shape_witness :
  exists body : str,
    (lit "192.168.1.1" = body \/ lit "192.168.1.1" = body ++ [10]) /\
    (7 <= length body <= 15)%nat /\ Forall digit_or_dot body.
Proof. apply (validate_ip_shape (lit "192.168.1.1")). reflexivity. Defined.

Lemma get_country_flag_ascii_pair_witness :
  get_country_flag (H := platform) (VStr (lit "u1")) = Ret [127482; 127446].
Proof.
  apply (proj1 (get_country_flag_ascii_pair (H := platform) 117 49
                  ltac:(lia) ltac:(lia))).
Defined.

Lemma save_then_lookup_witness :
  is_ip_in_database (VStr ip8) (at_time 2000) saved_once
  = (Ret true, after saved_once [SqlSelect (VStr ip8)]).
Proof.
  apply (save_then_lookup (legacy "United States") (VStr ip8) (at_time 1000) (at_time 2000)
           empty saved_once saved_once_run).
  reflexivity.
Defined.

Lemma save_other_addresses_witness :
  length (rows_for [1; 1; 1; 1] (ip_records saved_other)) = 1%nat /\
  rows_for [1; 1; 1; 1]
    (ip_records (save_ip_to_database (legacy "Germany") (at_time 1000) saved_other).2)
  = rows_for [1; 1; 1; 1] (ip_records saved_other).
Proof.
  split; [reflexivity|].
  apply (save_other_addresses (legacy "Germany") (at_time 1000) saved_other _
           (save_ip_to_database (legacy "Germany") (at_time 1000) saved_other).1).
  - by destruct (save_ip_to_database _ _ _).
  - intros ip Hip. change (Some (VStr ip8) = Some ip) in Hip.
    injection Hip as <-. intros Heq. discriminate Heq.
Defined.

Lemma save_twice_witness :
  (exists w2 : world,
     save_ip_to_database (legacy "United States") (at_time 1000) saved_once
     = (Ret true, w2) /\
     ip_records w2 = ip_records saved_once /\
     ip_records_id_seq w2 = 2) /\
  (exists w2 : world,
     save_ip_to_database (legacy "United States") (at_time 1000) saved_last
     = (Ret false, w2) /\
     ip_records w2 = ip_records saved_last /\
     ip_records_id_seq w2 = serial_max).
Proof.
  split.
  - apply (proj1 (save_twice (legacy "United States") (at_time 1000) empty saved_once
                    saved_once_run)).
    reflexivity.
  - apply (proj2 (save_twice (legacy "United States") (at_time 1000) nearly_full saved_last
                    saved_last_run)).
    discriminate.
Defined.

Lemma save_ids_witness :
  ip_records_id_seq saved_once = 1 /\
  exists row : ip_record,
    ip_records saved_once = [row] /\ ip_address row = [8; 8; 8; 8] /\ id row = 1.
Proof.
  destruct (save_ids (legacy "United States") (at_time 1000) empty saved_once saved_once_run)
    as (Hseq & ip & k & Hip & Hk & _ & Hfresh).
  split; [done|].
  change (Some (VStr ip8) = Some ip) in Hip. injection Hip as <-.
  injection Hk as <-.
  destruct Hfresh as (row & Hrows & Hrow); [apply not_elem_of_nil|].
  by exists row.
Defined.

Lemma get_ip_info_client_address_unchecked_witness :
  own !! lit "error" = None /\
  exists (ip : value) (w1 : world),
    get_user_ip timed_out empty = (Ret ip, w1) /\
    trace own_looked_up
    = trace w1 ++ [HttpGet (geo_url (IPAPI_TOKEN timed_out) ip); SqlSelect ip].
Proof.
  apply (get_ip_info_client_address_unchecked None timed_out empty own_looked_up own).
  - by left.
  - apply own_run.
Defined.

Lemma get_ip_info_body_not_object_witness :
  get_ip_info (Some ip8) listed empty
  = (Raise AttributeError, after empty (lookup_calls listed (VStr ip8))).
Proof.
  apply (get_ip_info_body_not_object (H := platform) (Some ip8) listed empty empty (VStr ip8)
           (Some [8; 8; 8; 8])
           {| status_code := 200; text := json_dumps (VList []); json := Some (VList []) |}
           (VList [])).
  - apply ip8_subject_in.
  - reflexivity.
  - reflexivity.
  - reflexivity.
  - intros d Hd. discriminate Hd.
Defined.

Lemma get_ip_info_database_refuses_witness :
  get_ip_info None spoofed empty
  = (Raise DatabaseError, after empty (lookup_calls spoofed (VStr (lit "not-an-ip")))).
Proof.
  apply (get_ip_info_database_refuses None spoofed empty empty (VStr (lit "not-an-ip"))).
  - right. split; [by left|]. rewrite get_user_ip_run. reflexivity.
  - discriminate.
  - reflexivity.
Defined.

Lemma get_ip_info_flag_raises_witness :
  get_ip_info (Some ip8) numbered empty
  = (Raise TypeError, after empty (lookup_calls numbered (VStr ip8))).
Proof.
  apply (get_ip_info_flag_raises (H := platform) (Some ip8) numbered empty empty (VStr ip8)
           (Some [8; 8; 8; 8])
           {| status_code := 200;
              text := json_dumps (VDict (list_to_map [(lit "country_code", VInt 840)]));
              json := Some (VDict (list_to_map [(lit "country_code", VInt 840)])) |}
           (list_to_map [(lit "country_code", VInt 840)])).
  - apply ip8_subject_in.
  - reflexivity.
  - reflexivity.
  - reflexivity.
  - reflexivity.
Defined.

Lemma get_ip_info_flag_of_code_witness :
  exists (loc : dict) (code : value) (flag : str),
    resolved false !! lit "location" = Some (VDict loc) /\
    loc !! lit "country_code" = Some code /\
    loc !! lit "country_flag" = Some (VStr flag) /\
    get_country_flag code = Ret flag.
Proof.
  apply (get_ip_info_flag_of_code (Some ip8) timed_out empty looked_up (resolved false)
           resolved_run eq_refl).
Defined.

Lemma get_ip_info_record_shape_witness :
  dom (resolved false) = record_keys /\
  (resolved false !! lit "status" = Some (VStr (lit "new")) \/
   resolved false !! lit "status" = Some (VStr (lit "duplicate"))) /\
  resolved false !! lit "vpn_detected" = Some (VBool false) /\
  resolved false !! lit "vpn_type" = Some VNone /\
  exists loc : dict,
    resolved false !! lit "location" = Some (VDict loc) /\ dom loc = location_keys.
Proof.
  apply (get_ip_info_record_shape (Some ip8) timed_out empty looked_up (resolved false)
           resolved_run eq_refl).
Defined.

Lemma rerouted_run :
  get_ip_info (Some ip8) rerouted empty
  = (Ret (ip_info false (VStr ip8) elsewhere [127757]),
     after empty (lookup_calls rerouted (VStr ip8))).
Proof.
  rewrite get_ip_info_custom by discriminate.
  rewrite get_ip_info_from_run. reflexivity.
Qed.

Lemma get_ip_info_ip_from_provider_witness :
  ip_info false (VStr ip8) elsewhere [127757] !! lit "ip" = Some (VStr (lit "9.9.9.9")) /\
  exists key : option (list Z),
    sql_param INET (VStr ip8) = Ret key /\
    (ip_info false (VStr ip8) elsewhere [127757] !! lit "status"
     = Some (VStr (lit "duplicate")) <-> row_exists (ip_records empty) key).
Proof.
  apply (get_ip_info_ip_from_provider (H := platform) (Some ip8) rerouted empty empty
           (after empty (lookup_calls rerouted (VStr ip8)))
           (VStr ip8) (VStr (lit "9.9.9.9"))
           {| status_code := 200; text := json_dumps (VDict elsewhere);
              json := Some (VDict elsewhere) |}
           elsewhere (ip_info false (VStr ip8) elsewhere [127757])
           (ip8_subject_in rerouted) eq_refl eq_refl eq_refl rerouted_run).
Defined.

Lemma save_ip_invalid_address_witness :
  save_ip (request (lit "not-an-ip") None) empty = (Raise (KeyError (lit "status")), empty).
Proof.
  apply (save_ip_invalid_address (request (lit "not-an-ip") None) empty (lit "not-an-ip")).
  - reflexivity.
  - discriminate.
  - reflexivity.
Defined.

Lemma api_routes_blank_address_witness :
  api_analyze_ip (request (lit "  ") None) empty = (Ret ip_required, empty) /\
  api_save_ip (request (lit "  ") None) empty = (Ret ip_required, empty).
Proof.
  apply (api_routes_blank_address (request (lit "  ") None) empty
           (list_to_map [(lit "ip_address", VStr (lit "  "))]) eq_refl).
  right. exists (lit "  "). split; reflexivity.
Defined.

Lemma api_routes_malformed_request_witness :
  api_analyze_ip (at_time 0) empty = (Ret server_error, empty) /\
  api_save_ip (at_time 0) empty = (Ret server_error, empty).
Proof.
  apply (api_routes_malformed_request (at_time 0) empty). by left.
Defined.

Lemma not_an_ip_asked :
  asks_for (request (lit " not-an-ip ") None) (lit "not-an-ip").
Proof. eexists _, _. repeat split; reflexivity. Qed.

Lemma api_routes_invalid_address_witness :
  api_analyze_ip (request (lit " not-an-ip ") None) empty = (Ret invalid_format, empty) /\
  api_save_ip (request (lit " not-an-ip ") None) empty = (Ret invalid_format, empty).
Proof.
  apply (api_routes_invalid_address (request (lit " not-an-ip ") None) empty
           (lit "not-an-ip") not_an_ip_asked).
  - discriminate.
  - reflexivity.
Defined.

Lemma ip8_asked : asks_for timed_out ip8.
Proof. eexists _, _. repeat split; reflexivity. Qed.

Lemma api_save_ip_resolved_address_witness :
  api_save_ip timed_out empty = (Ret save_failed, after looked_up [SqlRollback]).
Proof.
  apply (proj1 (api_save_ip_resolved_address timed_out empty looked_up ip8 (resolved false)
                  ip8_asked ltac:(discriminate) resolved_run eq_refl)).
  reflexivity.
Defined.

Lemma home_invalid_address_witness :
  home (lit "POST") (Some (lit " not-an-ip ")) timed_out timed_out empty
  = (Ret {| display_ip := VStr peer;
            error_message := VStr (lit "Invalid IP address format");
            page_data := own |}, own_looked_up).
Proof.
  apply (home_invalid_address (lit " not-an-ip ") timed_out timed_out empty empty
           own_looked_up (VStr peer) own).
  - discriminate.
  - reflexivity.
  - apply peer_run.
  - discriminate.
  - apply own_run.
Defined.

Lemma home_custom_address_witness :
  home (lit "POST") (Some (lit " 8.8.8.8 ")) timed_out timed_out empty
  = (Ret {| display_ip := VStr ip8; error_message := VNone;
            page_data := resolved false |}, looked_up).
Proof.
  apply (home_custom_address (lit " 8.8.8.8 ") timed_out timed_out empty empty
           looked_up (VStr peer) (resolved false)).
  - discriminate.
  - apply peer_run.
  - discriminate.
  - apply resolved_run.
  - reflexivity.
Defined.

Lemma home_own_address_witness :
  home (lit "POST") (Some (lit " 10.0.0.7 ")) timed_out timed_out empty
  = home (lit "GET") None timed_out timed_out empty.
Proof.
  apply (home_own_address (lit " 10.0.0.7 ") timed_out timed_out empty).
  right. rewrite peer_run. reflexivity.
Defined.

End Concrete.
